(** * Meeting-room booking backend: the reservation workflow

    A shallow embedding of the reservation service
    ([internal/services], type [ReservationService]), of the request and
    response types of [internal/models], and of the HTTP handlers of
    [internal/handlers/reservation_handler.go], followed by the properties
    of the booking workflow: overlap detection, cost calculation, status
    updates and the classification of errors.

    Conventions of the embedding.
    - A [time.Time] is the integer number of nanoseconds since the epoch;
      a [time.Duration] is a 64-bit integer number of nanoseconds, and
      [Time.Sub] saturates as in Go.
    - A [float64] is a primitive binary64 float; Go's [+], [*] and [/] on
      [float64] are the IEEE operations of [PrimFloat].
    - A [uuid.UUID] is the 128-bit number its sixteen bytes spell in
      big-endian order.
    - The database is a record of tables, each a list of rows in table
      order.  A service method runs in one transaction: it returns either
      an error, and then the database is unchanged (the deferred
      [tx.Rollback]), or a value together with the committed database.
      The integrity constraints declared by the migrations (primary and
      foreign keys, CHECK constraints) are part of the model.  Failures of
      the connection itself, and the rounding and range of the
      DECIMAL(10,2) and TIMESTAMP columns, are outside it: a column holds
      the value that was written to it.
    - The handlers are modelled from the bound request on: the decoding
      and binding of the JSON body ([ShouldBindJSON]) is not part of the
      model. *)

From Stdlib Require Import ZArith NArith List String Ascii Bool Lia Permutation.
From Stdlib Require Import Sorted.
From Stdlib Require Import DecimalString.
From Stdlib Require Import PrimFloat SpecFloat FloatOps.
Import ListNotations.

Open Scope string_scope.
Open Scope Z_scope.

(** ** Go runtime: strings, fmt, time, float64 conversions *)

Module strings.

(** [strings.HasPrefix s prefix] *)
Fixpoint HasPrefix (s prefix : string) : bool :=
  match prefix with
  | EmptyString => true
  | String c prefix' =>
      match s with
      | EmptyString => false
      | String d s' => Ascii.eqb c d && HasPrefix s' prefix'
      end
  end.

(** [strings.Contains s substr]: [substr] occurs at some position of [s]. *)
Fixpoint Contains (s substr : string) : bool :=
  HasPrefix s substr
  || match s with
     | EmptyString => false
     | String _ s' => Contains s' substr
     end.

(** [strings.ContainsRune s r], for a rune below 128 *)
Fixpoint ContainsRune (s : string) (r : ascii) : bool :=
  match s with
  | EmptyString => false
  | String d s' => Ascii.eqb r d || ContainsRune s' r
  end.

End strings.

Module fmt.

(** The verb [%d] applied to an [int]. *)
Definition d (n : Z) : string := NilZero.string_of_int (Z.to_int n).

End fmt.

Module uuid.

(** [uuid.UUID] is [[16]byte]. *)
Definition UUID : Type := N.

Definition eqb (a b : UUID) : bool := N.eqb a b.

(** [uuid.Nil] *)
Definition Nil : UUID := 0%N.

Definition hextable : string := "0123456789abcdef".

Definition hexdigit (n : N) : ascii :=
  match String.get (N.to_nat (n mod 16)) hextable with
  | Some c => c
  | None => "0"%char
  end.

(** Hexadecimal digits [i], [i+1], ..., [i+len-1] of the 32 digits of
    the identifier, counted from the most significant one. *)
Fixpoint encodeHex (u : UUID) (i len : nat) : string :=
  match len with
  | O => EmptyString
  | S len' =>
      String (hexdigit (N.shiftr u (4 * N.of_nat (31 - i))))
             (encodeHex u (S i) len')
  end.

(** [UUID.String]: xxxxxxxx-xxxx-xxxx-xxxx-xxxxxxxxxxxx, which is also
    what the verb [%v] prints. *)
Definition String (u : UUID) : string :=
  encodeHex u 0 8 ++ "-" ++ encodeHex u 8 4 ++ "-" ++ encodeHex u 12 4
    ++ "-" ++ encodeHex u 16 4 ++ "-" ++ encodeHex u 20 12.

End uuid.

Module builtin.

(** The conversion [float64(n)] of an integer: round to nearest, ties to
    even. *)
Definition float64 (n : Z) : float :=
  SF2Prim (binary_normalize 53 1024 n 0 false).

End builtin.

Module time.

Definition Time : Type := Z.
Definition Duration : Type := Z.

Definition Nanosecond : Duration := 1.
Definition Microsecond : Duration := 1000 * Nanosecond.
Definition Millisecond : Duration := 1000 * Microsecond.
Definition Second : Duration := 1000 * Millisecond.
Definition Minute : Duration := 60 * Second.
Definition Hour : Duration := 60 * Minute.

Definition minDuration : Duration := - 2 ^ 63.
Definition maxDuration : Duration := 2 ^ 63 - 1.

(** [t.Before(u)] and [t.After(u)] *)
Definition Before (t u : Time) : bool := t <? u.
Definition After (t u : Time) : bool := u <? t.

(** [t.Sub(u)]: the duration [t-u], saturated to the range of
    [Duration]. *)
Definition Sub (t u : Time) : Duration :=
  let d := t - u in
  if d <? minDuration then minDuration
  else if maxDuration <? d then maxDuration
  else d.

(** [d.Hours()] *)
Definition Hours (d : Duration) : float :=
  let hour := Z.quot d Hour in
  let nsec := Z.rem d Hour in
  (builtin.float64 hour
   + builtin.float64 nsec / builtin.float64 (60 * 60 * 1000000000))%float.

End time.

Module http.

Definition StatusOK : Z := 200.
Definition StatusCreated : Z := 201.
Definition StatusBadRequest : Z := 400.
Definition StatusNotFound : Z := 404.
Definition StatusConflict : Z := 409.
Definition StatusInternalServerError : Z := 500.

End http.

(** ** Results: a value or an [error], whose content is its message *)

Inductive result (A : Type) : Type :=
| Ok (a : A)
| Err (msg : string).

Arguments Ok {A} a.
Arguments Err {A} msg.

Definition bind {A B : Type} (r : result A) (k : A -> result B) : result B :=
  match r with
  | Ok a => k a
  | Err msg => Err msg
  end.

Notation "x <- r ;; k" := (bind r (fun x => k))
  (at level 61, r at next level, right associativity).
Notation "' pat <- r ;; k" := (bind r (fun x => match x with pat => k end))
  (at level 61, pat pattern, r at next level, right associativity).

Definition is_ok {A : Type} (r : result A) : bool :=
  match r with Ok _ => true | Err _ => false end.

(** [fmt.Errorf(prefix + ": %v", err)] *)
Definition wrap {A : Type} (prefix : string) (r : result A) : result A :=
  match r with
  | Ok a => Ok a
  | Err msg => Err (prefix ++ ": " ++ msg)
  end.

(** ** internal/models *)

Module models.

Definition ReservationStatus : Type := string.

Definition ReservationStatusPending : ReservationStatus := "pending".
Definition ReservationStatusConfirmed : ReservationStatus := "confirmed".
Definition ReservationStatusCancelled : ReservationStatus := "cancelled".
Definition ReservationStatusCompleted : ReservationStatus := "completed".

Definition IsValid (s : ReservationStatus) : bool :=
  String.eqb s ReservationStatusPending
  || String.eqb s ReservationStatusConfirmed
  || String.eqb s ReservationStatusCancelled
  || String.eqb s ReservationStatusCompleted.

(** A requested snack line: the anonymous struct of the [Snacks] field
    of both request types. *)
Module SnackLine.
Record t : Type := Build { SnackID : uuid.UUID; Quantity : Z }.
End SnackLine.

Module RoomInfo.
Record t : Type := Build { Capacity : Z; PricePerHour : float }.
End RoomInfo.

Module ReservationEvent.
Record t : Type := Build {
  ID : uuid.UUID;
  RoomID : uuid.UUID;
  RoomName : string;
  RoomDetails : RoomInfo.t;
  UserID : uuid.UUID;
  Username : string;
  StartTime : time.Time;
  EndTime : time.Time;
  DurationHours : float;
  VisitorCount : Z;
  Price : float;
  Status : string }.
End ReservationEvent.

Module UpdateReservationStatusRequest.
Record t : Type := Build {
  ReservationID : uuid.UUID;
  Status : ReservationStatus }.
End UpdateReservationStatusRequest.

Module ReservationCalculationRequest.
Record t : Type := Build {
  RoomID : uuid.UUID;
  Snacks : list SnackLine.t;
  StartTime : time.Time;
  EndTime : time.Time }.
End ReservationCalculationRequest.

(** A priced snack line of a response: the anonymous struct of the
    [Snacks] field of the calculation and detail responses. *)
Module SnackItem.
Record t : Type := Build {
  ID : uuid.UUID;
  Name : string;
  Category : string;
  Price : float;
  Quantity : Z;
  Subtotal : float }.
End SnackItem.

Module RoomCost.
Record t : Type := Build {
  ID : uuid.UUID;
  Name : string;
  PricePerHour : float;
  TotalHours : float;
  TotalCost : float }.
End RoomCost.

Module ReservationCalculationResponse.
Record t : Type := Build {
  Room : RoomCost.t;
  Snacks : list SnackItem.t;
  TotalCost : float }.
End ReservationCalculationResponse.

Module CreateReservationRequest.
Record t : Type := Build {
  RoomID : uuid.UUID;
  UserID : uuid.UUID;
  StartTime : time.Time;
  EndTime : time.Time;
  VisitorCount : Z;
  Snacks : list SnackLine.t }.
End CreateReservationRequest.

Module CreateReservationResponse.
Record t : Type := Build {
  ReservationID : uuid.UUID;
  Status : string;
  TotalCost : float;
  CreatedAt : time.Time }.
End CreateReservationResponse.

Module RoomDetail.
Record t : Type := Build {
  ID : uuid.UUID;
  Name : string;
  Capacity : Z;
  PricePerHour : float }.
End RoomDetail.

Module UserDetail.
Record t : Type := Build { ID : uuid.UUID; Username : string }.
End UserDetail.

Module ReservationDetailResponse.
Record t : Type := Build {
  ID : uuid.UUID;
  Status : string;
  StartTime : time.Time;
  EndTime : time.Time;
  VisitorCount : Z;
  Price : float;
  CreatedAt : time.Time;
  UpdatedAt : time.Time;
  Room : RoomDetail.t;
  User : UserDetail.t;
  Snacks : list SnackItem.t;
  TotalCost : float }.
End ReservationDetailResponse.

End models.

(** ** The database: tables of db/migrations and their constraints *)

Module database.

(** [CREATE TYPE room_status AS ENUM ('available', 'maintenance', 'occupied')] *)
Inductive room_status : Type := available | maintenance | occupied.

(** [CREATE TYPE reservation_status AS ENUM
     ('pending', 'confirmed', 'cancelled', 'completed')] *)
Inductive reservation_status : Type :=
  pending | confirmed | cancelled | completed.

Definition room_status_eqb (a b : room_status) : bool :=
  match a, b with
  | available, available | maintenance, maintenance
  | occupied, occupied => true
  | _, _ => false
  end.

Definition reservation_status_eqb (a b : reservation_status) : bool :=
  match a, b with
  | pending, pending | confirmed, confirmed
  | cancelled, cancelled | completed, completed => true
  | _, _ => false
  end.

(** Input and output of the enum: the text a statement parameter carries
    and the text a scanned column yields. *)
Definition reservation_status_in (s : string) : result reservation_status :=
  if String.eqb s "pending" then Ok pending
  else if String.eqb s "confirmed" then Ok confirmed
  else if String.eqb s "cancelled" then Ok cancelled
  else if String.eqb s "completed" then Ok completed
  else Err "pq: invalid input value for enum reservation_status".

Definition reservation_status_out (s : reservation_status) : string :=
  match s with
  | pending => "pending"
  | confirmed => "confirmed"
  | cancelled => "cancelled"
  | completed => "completed"
  end.

Module Rooms.
Record row : Type := Build {
  id : uuid.UUID;
  name : string;
  capacity : Z;
  price_per_hour : float;
  status : room_status }.
End Rooms.

Module Users.
Record row : Type := Build { id : uuid.UUID; username : string }.
End Users.

Module Reservations.
Record row : Type := Build {
  id : uuid.UUID;
  room_id : uuid.UUID;
  user_id : uuid.UUID;
  start_time : time.Time;
  end_time : time.Time;
  visitor_count : Z;
  price : float;
  status : reservation_status;
  created_at : time.Time;
  updated_at : time.Time }.

Definition set_status (s : reservation_status) (now : time.Time)
    (r : row) : row :=
  Build (id r) (room_id r) (user_id r) (start_time r) (end_time r)
        (visitor_count r) (price r) s (created_at r) now.
End Reservations.

Module Snacks.
Record row : Type := Build {
  id : uuid.UUID;
  name : string;
  category : string;
  price : float }.
End Snacks.

Module ReservationSnacks.
Record row : Type := Build {
  reservation_id : uuid.UUID;
  snack_id : uuid.UUID;
  quantity : Z;
  price : float }.
End ReservationSnacks.

Record DB : Type := Build {
  rooms : list Rooms.row;
  users : list Users.row;
  reservations : list Reservations.row;
  snacks : list Snacks.row;
  reservation_snacks : list ReservationSnacks.row }.

Definition with_reservations (db : DB) (rs : list Reservations.row) : DB :=
  Build (rooms db) (users db) rs (snacks db) (reservation_snacks db).

Definition with_reservation_snacks (db : DB)
    (rss : list ReservationSnacks.row) : DB :=
  Build (rooms db) (users db) (reservations db) (snacks db) rss.

Definition with_snacks (db : DB) (ss : list Snacks.row) : DB :=
  Build (rooms db) (users db) (reservations db) ss (reservation_snacks db).

(** [INSERT INTO reservations]: the CHECK constraint [valid_time_range],
    the primary key, and the foreign keys to [rooms] and [users]. *)
Definition insert_reservation (db : DB) (r : Reservations.row) : result DB :=
  if negb (Reservations.start_time r <? Reservations.end_time r) then
    Err "pq: new row for relation reservations violates check constraint valid_time_range"
  else if existsb (fun r' => uuid.eqb (Reservations.id r') (Reservations.id r))
                  (reservations db) then
    Err "pq: duplicate key value violates unique constraint reservations_pkey"
  else if negb (existsb (fun rm => uuid.eqb (Rooms.id rm) (Reservations.room_id r))
                        (rooms db)) then
    Err "pq: insert or update on table reservations violates foreign key constraint reservations_room_id_fkey"
  else if negb (existsb (fun u => uuid.eqb (Users.id u) (Reservations.user_id r))
                        (users db)) then
    Err "pq: insert or update on table reservations violates foreign key constraint reservations_user_id_fkey"
  else Ok (with_reservations db (reservations db ++ [r])%list).

(** [INSERT INTO reservation_snacks]: [CHECK (quantity > 0)] and the
    foreign keys to [reservations] and [snacks]. *)
Definition insert_reservation_snack (db : DB) (rs : ReservationSnacks.row)
    : result DB :=
  if negb (0 <? ReservationSnacks.quantity rs) then
    Err "pq: new row for relation reservation_snacks violates check constraint reservation_snacks_quantity_check"
  else if negb (existsb (fun r => uuid.eqb (Reservations.id r)
                                           (ReservationSnacks.reservation_id rs))
                        (reservations db)) then
    Err "pq: insert or update on table reservation_snacks violates foreign key constraint reservation_snacks_reservation_id_fkey"
  else if negb (existsb (fun s => uuid.eqb (Snacks.id s)
                                           (ReservationSnacks.snack_id rs))
                        (snacks db)) then
    Err "pq: insert or update on table reservation_snacks violates foreign key constraint reservation_snacks_snack_id_fkey"
  else Ok (with_reservation_snacks db (reservation_snacks db ++ [rs])%list).

(** A change of the catalog prices: every row of [snacks] gets the price
    [newPrice] assigns to it, and keeps its other columns. *)
Definition reprice (newPrice : Snacks.row -> float) (db : DB) : DB :=
  with_snacks db
    (map (fun s => Snacks.Build (Snacks.id s) (Snacks.name s)
                     (Snacks.category s) (newPrice s))
         (snacks db)).

(** No identifier occurs twice. *)
Fixpoint unique (ids : list uuid.UUID) : bool :=
  match ids with
  | [] => true
  | id :: ids' => negb (existsb (uuid.eqb id) ids') && unique ids'
  end.

(** [rooms.id] and [snacks.id] are primary keys. *)
Definition rooms_pkey (db : DB) : Prop :=
  unique (map Rooms.id (rooms db)) = true.

Definition snacks_pkey (db : DB) : Prop :=
  unique (map Snacks.id (snacks db)) = true.

(** Every stored reservation satisfies the CHECK constraint
    [valid_time_range]. *)
Definition valid_time_range (db : DB) : Prop :=
  forallb (fun r => Reservations.start_time r <? Reservations.end_time r)
          (reservations db) = true.

Definition user_exists (db : DB) (id : uuid.UUID) : bool :=
  existsb (fun u => uuid.eqb (Users.id u) id) (users db).

Definition reservation_exists (db : DB) (id : uuid.UUID) : bool :=
  existsb (fun r => uuid.eqb (Reservations.id r) id) (reservations db).

(** [sql.ErrNoRows] *)
Definition ErrNoRows : string := "sql: no rows in result set".

End database.

(** ** internal/services: ReservationService *)

Module services.

Import database models.

(** What one call observes of the world outside the database. *)
Record Env : Type := BuildEnv {
  Now : time.Time;                (* [time.Now()] on entry *)
  CURRENT_TIMESTAMP : time.Time;  (* the clock of the transaction, [NOW()] *)
  uuid_generate_v4 : uuid.UUID;   (* the identifier drawn for a new row *)
  NowAtReturn : time.Time }.      (* [time.Now()] when the response is built *)

(** "Validate time constraints": the statements that open both
    [CreateReservation] and [CalculateReservationCost]. *)
Definition validateTimeConstraints (now StartTime EndTime : time.Time)
    : result unit :=
  if time.Before StartTime now then
    Err "reservation start time must be in the future"
  else if negb (time.After EndTime StartTime) then
    Err "reservation end time must be after start time"
  else
    let duration := time.Sub EndTime StartTime in
    if duration <? 30 * time.Minute then
      Err "reservation must be at least 30 minutes long"
    else if 24 * time.Hour <? duration then
      Err "reservation cannot exceed 24 hours"
    else Ok tt.

(** The errors of that block. *)
Definition timeConstraintError (msg : string) : bool :=
  String.eqb msg "reservation start time must be in the future"
  || String.eqb msg "reservation end time must be after start time"
  || String.eqb msg "reservation must be at least 30 minutes long"
  || String.eqb msg "reservation cannot exceed 24 hours".

(** [FROM rooms WHERE id = $1 AND status = 'available'], first row. *)
Definition queryAvailableRoom (db : DB) (RoomID : uuid.UUID)
    : option Rooms.row :=
  find (fun rm => uuid.eqb (Rooms.id rm) RoomID
                  && room_status_eqb (Rooms.status rm) available)
       (rooms db).

(** The three-clause condition on the times in the WHERE clause of
    "Check for overlapping reservations", with [$2 = StartTime] and
    [$3 = EndTime]. *)
Definition timesOverlap (StartTime EndTime start_time end_time : time.Time)
    : bool :=
  ((start_time <=? StartTime) && (StartTime <? end_time))
  || ((start_time <? EndTime) && (EndTime <=? end_time))
  || ((StartTime <=? start_time) && (end_time <=? EndTime)).

(** The whole WHERE clause, with [$1 = RoomID]. *)
Definition overlapping (RoomID : uuid.UUID) (StartTime EndTime : time.Time)
    (r : Reservations.row) : bool :=
  uuid.eqb (Reservations.room_id r) RoomID
  && negb (reservation_status_eqb (Reservations.status r) cancelled)
  && timesOverlap StartTime EndTime
       (Reservations.start_time r) (Reservations.end_time r).

(** [SELECT COUNT( * ) FROM reservations WHERE ...] *)
Definition countOverlapping (db : DB) (RoomID : uuid.UUID)
    (StartTime EndTime : time.Time) : Z :=
  Z.of_nat (List.length (filter (overlapping RoomID StartTime EndTime)
                                (reservations db))).

(** [FROM snacks WHERE id = ANY($1)] *)
Definition querySnacks (db : DB) (snackIDs : list uuid.UUID)
    : list Snacks.row :=
  filter (fun s => existsb (uuid.eqb (Snacks.id s)) snackIDs) (snacks db).

(** The first requested line that names the snack: the inner loop
    "Find quantity for this snack", left at its [break]. *)
Definition findLine (lines : list SnackLine.t) (id : uuid.UUID)
    : option SnackLine.t :=
  find (fun reqSnack => uuid.eqb (SnackLine.SnackID reqSnack) id) lines.

(** The element type of the local slice [snacks] of [CreateReservation]. *)
Module snackOrder.
Record t : Type := Build {
  ID : uuid.UUID; Name : string; Price : float; Quantity : Z }.
End snackOrder.

(** The element type of the local slice [snacks] of
    [CalculateReservationCost]. *)
Module snackQuote.
Record t : Type := Build {
  ID : uuid.UUID; Name : string; Category : string;
  Price : float; Quantity : Z }.
End snackQuote.

(** One iteration of [for rows.Next()] in [CreateReservation]. *)
Definition scanOrder (lines : list SnackLine.t)
    (acc : list snackOrder.t * float) (snack : Snacks.row)
    : list snackOrder.t * float :=
  let '(snacks, totalSnackCost) := acc in
  match findLine lines (Snacks.id snack) with
  | Some reqSnack =>
      let subtotal :=
        (Snacks.price snack * builtin.float64 (SnackLine.Quantity reqSnack))%float in
      ((snacks ++ [snackOrder.Build (Snacks.id snack) (Snacks.name snack)
                     (Snacks.price snack) (SnackLine.Quantity reqSnack)])%list,
       (totalSnackCost + subtotal)%float)
  | None => acc
  end.

(** "Create snack orders" *)
Fixpoint insertSnackOrders (db : DB) (reservationID : uuid.UUID)
    (snacks : list snackOrder.t) : result DB :=
  match snacks with
  | [] => Ok db
  | snack :: rest =>
      db' <- wrap "error creating snack order"
               (insert_reservation_snack db
                  (ReservationSnacks.Build reservationID (snackOrder.ID snack)
                     (snackOrder.Quantity snack) (snackOrder.Price snack))) ;;
      insertSnackOrders db' reservationID rest
  end.

Definition CreateReservation (env : Env) (db : DB)
    (req : CreateReservationRequest.t)
    : result (CreateReservationResponse.t * DB) :=
  let RoomID := CreateReservationRequest.RoomID req in
  let StartTime := CreateReservationRequest.StartTime req in
  let EndTime := CreateReservationRequest.EndTime req in
  _ <- validateTimeConstraints (Now env) StartTime EndTime ;;
  (* Check room availability *)
  match queryAvailableRoom db RoomID with
  | None => Err "room not found or inactive"
  | Some rm =>
      let roomCapacity := Rooms.capacity rm in
      let pricePerHour := Rooms.price_per_hour rm in
      (* Validate visitor count against room capacity *)
      if roomCapacity <? CreateReservationRequest.VisitorCount req then
        Err ("visitor count exceeds room capacity of " ++ fmt.d roomCapacity)
      else
        (* Check for overlapping reservations *)
        let overlappingCount := countOverlapping db RoomID StartTime EndTime in
        if 0 <? overlappingCount then
          Err "room is already booked for the selected time period"
        else
          (* Calculate room cost *)
          let bookingDuration := time.Sub EndTime StartTime in
          let hours := time.Hours bookingDuration in
          let roomCost := (pricePerHour * hours)%float in
          (* Get snack details and calculate costs *)
          let snackIDs :=
            map SnackLine.SnackID (CreateReservationRequest.Snacks req) in
          let '(snacks, totalSnackCost) :=
            fold_left (scanOrder (CreateReservationRequest.Snacks req))
                      (querySnacks db snackIDs) ([], 0%float) in
          (* Calculate total cost *)
          let totalCost := (roomCost + totalSnackCost)%float in
          (* Create reservation *)
          let reservationID := uuid_generate_v4 env in
          db1 <- wrap "error creating reservation"
                   (insert_reservation db
                      (Reservations.Build reservationID RoomID
                         (CreateReservationRequest.UserID req)
                         StartTime EndTime
                         (CreateReservationRequest.VisitorCount req)
                         totalCost pending
                         (CURRENT_TIMESTAMP env) (CURRENT_TIMESTAMP env))) ;;
          (* Create snack orders *)
          db2 <- insertSnackOrders db1 reservationID snacks ;;
          Ok (CreateReservationResponse.Build reservationID "pending"
                totalCost (NowAtReturn env),
              db2)
  end.

(** One iteration of [for rows.Next()] in [CalculateReservationCost]. *)
Definition scanQuote (lines : list SnackLine.t)
    (snacks : list snackQuote.t) (snack : Snacks.row) : list snackQuote.t :=
  match findLine lines (Snacks.id snack) with
  | Some reqSnack =>
      (snacks ++ [snackQuote.Build (Snacks.id snack) (Snacks.name snack)
                    (Snacks.category snack) (Snacks.price snack)
                    (SnackLine.Quantity reqSnack)])%list
  | None => snacks
  end.

(** One iteration of "Calculate snack costs". *)
Definition addQuote (response : ReservationCalculationResponse.t)
    (snack : snackQuote.t) : ReservationCalculationResponse.t :=
  let subtotal :=
    (snackQuote.Price snack * builtin.float64 (snackQuote.Quantity snack))%float in
  ReservationCalculationResponse.Build
    (ReservationCalculationResponse.Room response)
    (ReservationCalculationResponse.Snacks response
       ++ [SnackItem.Build (snackQuote.ID snack) (snackQuote.Name snack)
             (snackQuote.Category snack) (snackQuote.Price snack)
             (snackQuote.Quantity snack) subtotal])%list
    (ReservationCalculationResponse.TotalCost response + subtotal)%float.

Definition CalculateReservationCost (env : Env) (db : DB)
    (req : ReservationCalculationRequest.t)
    : result ReservationCalculationResponse.t :=
  let StartTime := ReservationCalculationRequest.StartTime req in
  let EndTime := ReservationCalculationRequest.EndTime req in
  _ <- validateTimeConstraints (Now env) StartTime EndTime ;;
  (* Get room details *)
  match queryAvailableRoom db (ReservationCalculationRequest.RoomID req) with
  | None => Err "room not found or inactive"
  | Some room =>
      (* Calculate room cost *)
      let bookingDuration := time.Sub EndTime StartTime in
      let hours := time.Hours bookingDuration in
      let roomCost := (Rooms.price_per_hour room * hours)%float in
      (* Get snack details and calculate costs *)
      let snackIDs :=
        map SnackLine.SnackID (ReservationCalculationRequest.Snacks req) in
      let snacks :=
        fold_left (scanQuote (ReservationCalculationRequest.Snacks req))
                  (querySnacks db snackIDs) [] in
      (* Calculate total cost *)
      let response :=
        ReservationCalculationResponse.Build
          (RoomCost.Build (Rooms.id room) (Rooms.name room)
             (Rooms.price_per_hour room) hours roomCost)
          [] roomCost in
      Ok (fold_left addQuote snacks response)
  end.

(** The join [FROM reservations r JOIN rooms rm ON r.room_id = rm.id
    JOIN users u ON r.user_id = u.id WHERE r.id = $1]. *)
Definition joinReservation (db : DB) (id : uuid.UUID)
    : list (Reservations.row * Rooms.row * Users.row) :=
  flat_map
    (fun r =>
       flat_map
         (fun rm =>
            map (fun u => (r, rm, u))
                (filter (fun u => uuid.eqb (Reservations.user_id r) (Users.id u))
                        (users db)))
         (filter (fun rm => uuid.eqb (Reservations.room_id r) (Rooms.id rm))
                 (rooms db)))
    (filter (fun r => uuid.eqb (Reservations.id r) id) (reservations db)).

(** [QueryRow(...).Scan(...)]: the first row, or [sql.ErrNoRows]. *)
Definition QueryRow {A : Type} (rows : list A) : result A :=
  match rows with
  | row :: _ => Ok row
  | [] => Err ErrNoRows
  end.

(** "Fetch updated reservation with all details", with the duration in
    hours. *)
Definition scanEvent (row : Reservations.row * Rooms.row * Users.row)
    : ReservationEvent.t :=
  let '(r, rm, u) := row in
  ReservationEvent.Build
    (Reservations.id r) (Reservations.room_id r) (Rooms.name rm)
    (RoomInfo.Build (Rooms.capacity rm) (Rooms.price_per_hour rm))
    (Reservations.user_id r) (Users.username u)
    (Reservations.start_time r) (Reservations.end_time r)
    (time.Hours (time.Sub (Reservations.end_time r) (Reservations.start_time r)))
    (Reservations.visitor_count r) (Reservations.price r)
    (reservation_status_out (Reservations.status r)).

Definition UpdateReservationStatus (env : Env) (db : DB)
    (req : UpdateReservationStatusRequest.t)
    : result (ReservationEvent.t * DB) :=
  let ReservationID := UpdateReservationStatusRequest.ReservationID req in
  (* Validate status *)
  if negb (IsValid (UpdateReservationStatusRequest.Status req)) then
    Err "invalid status: must be one of pending, confirmed, cancelled, or completed"
  else
    (* Update reservation status *)
    status <- wrap "error updating reservation status"
                (reservation_status_in
                   (UpdateReservationStatusRequest.Status req)) ;;
    let hit r := uuid.eqb (Reservations.id r) ReservationID in
    let rowsAffected :=
      Z.of_nat (List.length (filter hit (reservations db))) in
    let db' :=
      with_reservations db
        (map (fun r =>
                if hit r
                then Reservations.set_status status (CURRENT_TIMESTAMP env) r
                else r)
             (reservations db)) in
    if rowsAffected =? 0 then
      Err ("reservation not found with ID: " ++ uuid.String ReservationID)
    else
      (* Fetch updated reservation with all details *)
      row <- wrap "error fetching updated reservation"
               (QueryRow (joinReservation db' ReservationID)) ;;
      Ok (scanEvent row, db').

(** The join [FROM reservation_snacks rs JOIN snacks s
    ON rs.snack_id = s.id WHERE rs.reservation_id = $1]. *)
Definition joinReservationSnacks (db : DB) (id : uuid.UUID)
    : list (ReservationSnacks.row * Snacks.row) :=
  flat_map
    (fun rs =>
       map (fun s => (rs, s))
           (filter (fun s => uuid.eqb (ReservationSnacks.snack_id rs) (Snacks.id s))
                   (snacks db)))
    (filter (fun rs => uuid.eqb (ReservationSnacks.reservation_id rs) id)
            (reservation_snacks db)).

(** One iteration of [for rows.Next()] in [GetReservationByID]: the
    columns scanned are [s.id, s.name, s.category, rs.price,
    rs.quantity]. *)
Definition scanDetail (acc : list SnackItem.t * float)
    (row : ReservationSnacks.row * Snacks.row) : list SnackItem.t * float :=
  let '(items, totalSnackCost) := acc in
  let '(rs, s) := row in
  let Price := ReservationSnacks.price rs in
  let Quantity := ReservationSnacks.quantity rs in
  let subtotal := (Price * builtin.float64 Quantity)%float in
  ((items ++ [SnackItem.Build (Snacks.id s) (Snacks.name s)
                 (Snacks.category s) Price Quantity subtotal])%list,
   (totalSnackCost + subtotal)%float).

Definition GetReservationByID (db : DB) (id : uuid.UUID)
    : result ReservationDetailResponse.t :=
  (* Get reservation details with room and user information *)
  match joinReservation db id with
  | [] => Err "reservation not found"
  | (r, rm, u) :: _ =>
      (* Get snacks for this reservation *)
      let '(Snacks, totalSnackCost) :=
        fold_left scanDetail (joinReservationSnacks db id) ([], 0%float) in
      (* Calculate total cost (room cost + snack cost) *)
      let TotalCost := Reservations.price r in
      Ok (ReservationDetailResponse.Build
            (Reservations.id r)
            (reservation_status_out (Reservations.status r))
            (Reservations.start_time r) (Reservations.end_time r)
            (Reservations.visitor_count r) (Reservations.price r)
            (Reservations.created_at r) (Reservations.updated_at r)
            (RoomDetail.Build (Rooms.id rm) (Rooms.name rm)
               (Rooms.capacity rm) (Rooms.price_per_hour rm))
            (UserDetail.Build (Users.id u) (Users.username u))
            Snacks TotalCost)
  end.

(** The database after a call: the committed one, or the one before when
    the call failed and the transaction was rolled back. *)
Definition committed {A : Type} (db : DB) (r : result (A * DB)) : DB :=
  match r with
  | Ok (_, db') => db'
  | Err _ => db
  end.

End services.

(** ** internal/handlers: ReservationHandler *)

Module handlers.

Import models.

(** [c.JSON(code, gin.H{"error": msg})] or [c.JSON(code, value)]. *)
Inductive body (A : Type) : Type :=
| H_error (msg : string)
| JSON (a : A).

Arguments H_error {A} msg.
Arguments JSON {A} a.

Record response (A : Type) : Type := Respond { code : Z; payload : body A }.

Arguments Respond {A} code payload.
Arguments code {A} r.
Arguments payload {A} r.

Definition UpdateReservationStatus (env : services.Env) (db : database.DB)
    (req : UpdateReservationStatusRequest.t)
    : response ReservationEvent.t * database.DB :=
  match services.UpdateReservationStatus env db req with
  | Err err =>
      (if String.eqb err "reservation not found" then
         Respond http.StatusNotFound (H_error err)
       else if strings.Contains err "invalid status" then
         Respond http.StatusBadRequest (H_error err)
       else Respond http.StatusInternalServerError (H_error err),
       db)
  | Ok (updatedReservation, db') =>
      (Respond http.StatusOK (JSON updatedReservation), db')
  end.

Definition CalculateReservationCost (env : services.Env) (db : database.DB)
    (req : ReservationCalculationRequest.t)
    : response ReservationCalculationResponse.t :=
  (* Validate time range *)
  if time.Before (ReservationCalculationRequest.EndTime req)
                 (ReservationCalculationRequest.StartTime req) then
    Respond http.StatusBadRequest (H_error "end time must be after start time")
  else
    (* Calculate costs *)
    match services.CalculateReservationCost env db req with
    | Err err =>
        if String.eqb err "room not found or inactive" then
          Respond http.StatusNotFound (H_error err)
        else Respond http.StatusInternalServerError (H_error err)
    | Ok resp => Respond http.StatusOK (JSON resp)
    end.

Definition CreateReservation (env : services.Env) (db : database.DB)
    (req : CreateReservationRequest.t)
    : response CreateReservationResponse.t * database.DB :=
  (* Validate time range *)
  if time.Before (CreateReservationRequest.EndTime req)
                 (CreateReservationRequest.StartTime req) then
    (Respond http.StatusBadRequest (H_error "end time must be after start time"),
     db)
  else
    (* Create reservation *)
    match services.CreateReservation env db req with
    | Err err =>
        (if String.eqb err "room not found or inactive" then
           Respond http.StatusNotFound (H_error err)
         else if String.eqb err "visitor count exceeds room capacity" then
           Respond http.StatusBadRequest (H_error err)
         else if String.eqb err "room is already booked for the selected time period" then
           Respond http.StatusConflict (H_error err)
         else Respond http.StatusInternalServerError (H_error err),
         db)
    | Ok (resp, db') => (Respond http.StatusCreated (JSON resp), db')
    end.

End handlers.

(** ** The specification's vocabulary *)

Module spec.

Import database models.

(** Overlap check: an existing reservation [[s,e)] meets the candidate
    interval [[S,E)] if [s < E and e > S]. *)
Definition intersects (S E s e : time.Time) : bool := (s <? E) && (S <? e).

(** A reservation with status other than cancelled. *)
Definition live (r : Reservations.row) : bool :=
  negb (reservation_status_eqb (Reservations.status r) cancelled).

(** An existing reservation conflicts with a candidate for a room if it
    is for the same room, is not cancelled, and its interval meets the
    candidate's. *)
Definition conflicts (RoomID : uuid.UUID) (S E : time.Time)
    (r : Reservations.row) : bool :=
  uuid.eqb (Reservations.room_id r) RoomID
  && live r
  && intersects S E (Reservations.start_time r) (Reservations.end_time r).

(** Two reservations may stand side by side unless they are for the same
    room, neither is cancelled, and their intervals overlap. *)
Definition compatible (r1 r2 : Reservations.row) : bool :=
  negb (uuid.eqb (Reservations.room_id r1) (Reservations.room_id r2)
        && live r1 && live r2
        && intersects (Reservations.start_time r1) (Reservations.end_time r1)
             (Reservations.start_time r2) (Reservations.end_time r2)).

Fixpoint pairwise {A : Type} (R : A -> A -> bool) (l : list A) : bool :=
  match l with
  | [] => true
  | x :: l' => forallb (R x) l' && pairwise R l'
  end.

(** Invariant: no two non-cancelled reservations for the same room have
    overlapping intervals. *)
Definition no_double_booking (db : DB) : Prop :=
  pairwise compatible (reservations db) = true.

(** A request violates the time constraints if its duration is less
    than 30 minutes or more than 24 hours, or its start is in the past. *)
Definition violates_time_constraints (now S E : time.Time) : Prop :=
  E - S < 30 * time.Minute \/ 24 * time.Hour < E - S \/ S < now.

(** The catalog price of a snack. *)
Definition unitPrice (db : DB) (id : uuid.UUID) : option float :=
  option_map Snacks.price
    (find (fun s => uuid.eqb (Snacks.id s) id) (snacks db)).

(** snack.unitPrice x quantity, for a line whose snack is in the
    catalog. *)
Definition lineSubtotals (db : DB) (lines : list SnackLine.t) : list float :=
  flat_map
    (fun l =>
       match unitPrice db (SnackLine.SnackID l) with
       | Some p => [(p * builtin.float64 (SnackLine.Quantity l))%float]
       | None => []
       end)
    lines.

(** Every requested quantity is at least 1 (the binding [min=1]). *)
Definition positive_quantities (lines : list SnackLine.t) : bool :=
  forallb (fun l => 0 <? SnackLine.Quantity l) lines.

(** A sum of [float64] values, accumulated from left to right. *)
Definition sum (from : float) (xs : list float) : float :=
  fold_left PrimFloat.add xs from.

(** room.hourlyRate x (E - S in hours) *)
Definition roomCost (hourlyRate : float) (S E : time.Time) : float :=
  (hourlyRate * time.Hours (time.Sub E S))%float.

(** Total cost = room.hourlyRate x (E - S in hours)
    + sum (snack.unitPrice x quantity) over requested snack lines. *)
Definition totalCost (db : DB) (hourlyRate : float) (S E : time.Time)
    (lines : list SnackLine.t) : float :=
  (roomCost hourlyRate S E + sum 0 (lineSubtotals db lines))%float.

End spec.

(** ** Closed forms of the loops of the service *)

Module views.

Import database models services.

(** The order that the scan of a catalog row appends, given the line
    that names the row. *)
Definition orderOf (s : Snacks.row) (l : SnackLine.t) : snackOrder.t :=
  snackOrder.Build (Snacks.id s) (Snacks.name s) (Snacks.price s)
    (SnackLine.Quantity l).

(** The local slice [snacks] of [CreateReservation] when the scan of the
    catalog rows ends: one order for each row of the query, in the order
    of the rows, with the quantity of the first line that names it. *)
Definition orders (db : DB) (lines : list SnackLine.t) : list snackOrder.t :=
  flat_map
    (fun s =>
       match findLine lines (Snacks.id s) with
       | Some l => [orderOf s l]
       | None => []
       end)
    (querySnacks db (map SnackLine.SnackID lines)).

Definition subtotal (o : snackOrder.t) : float :=
  (snackOrder.Price o * builtin.float64 (snackOrder.Quantity o))%float.

(** The row of [reservation_snacks] written for an order. *)
Definition orderRow (reservationID : uuid.UUID) (o : snackOrder.t)
    : ReservationSnacks.row :=
  ReservationSnacks.Build reservationID (snackOrder.ID o)
    (snackOrder.Quantity o) (snackOrder.Price o).

(** The total cost computed by [CreateReservation] for a room. *)
Definition createTotal (db : DB) (rm : Rooms.row)
    (req : CreateReservationRequest.t) : float :=
  (Rooms.price_per_hour rm
     * time.Hours (time.Sub (CreateReservationRequest.EndTime req)
                            (CreateReservationRequest.StartTime req))
   + fold_left PrimFloat.add
       (map subtotal (orders db (CreateReservationRequest.Snacks req)))
       0)%float.

(** The row of [reservations] written by [CreateReservation]. *)
Definition newReservation (env : Env) (req : CreateReservationRequest.t)
    (totalCost : float) : Reservations.row :=
  Reservations.Build (uuid_generate_v4 env)
    (CreateReservationRequest.RoomID req)
    (CreateReservationRequest.UserID req)
    (CreateReservationRequest.StartTime req)
    (CreateReservationRequest.EndTime req)
    (CreateReservationRequest.VisitorCount req)
    totalCost pending (CURRENT_TIMESTAMP env) (CURRENT_TIMESTAMP env).

(** The database committed by a successful [CreateReservation]. *)
Definition created (env : Env) (db : DB) (rm : Rooms.row)
    (req : CreateReservationRequest.t) : DB :=
  database.Build (rooms db) (users db)
    (reservations db ++ [newReservation env req (createTotal db rm req)])%list
    (snacks db)
    (reservation_snacks db
       ++ map (orderRow (uuid_generate_v4 env))
              (orders db (CreateReservationRequest.Snacks req)))%list.

(** The priced line of the calculation response for an order. *)
Definition itemOf (s : Snacks.row) (l : SnackLine.t) : SnackItem.t :=
  SnackItem.Build (Snacks.id s) (Snacks.name s) (Snacks.category s)
    (Snacks.price s) (SnackLine.Quantity l)
    (Snacks.price s * builtin.float64 (SnackLine.Quantity l))%float.

Definition items (db : DB) (lines : list SnackLine.t) : list SnackItem.t :=
  flat_map
    (fun s =>
       match findLine lines (Snacks.id s) with
       | Some l => [itemOf s l]
       | None => []
       end)
    (querySnacks db (map SnackLine.SnackID lines)).

(** The line of the detail response for a row of the join of
    [reservation_snacks] with [snacks]. *)
Definition detailItem (row : ReservationSnacks.row * Snacks.row)
    : SnackItem.t :=
  let '(rs, s) := row in
  SnackItem.Build (Snacks.id s) (Snacks.name s) (Snacks.category s)
    (ReservationSnacks.price rs) (ReservationSnacks.quantity rs)
    (ReservationSnacks.price rs * builtin.float64 (ReservationSnacks.quantity rs))%float.

End views.

(** ** A small database to run the service on *)

Module example.

Import database models.

Set Warnings "-inexact-float".

Definition hour : time.Duration := time.Hour.

Definition roomA : Rooms.row :=
  Rooms.Build 1%N "Meeting Room A" 10 100000%float available.
Definition roomB : Rooms.row :=
  Rooms.Build 2%N "Conference Room B" 20 200000%float maintenance.

Definition user1 : Users.row := Users.Build 100%N "user1".

Definition coffee : Snacks.row := Snacks.Build 201%N "Coffee" "drink" 5000%float.
Definition cake : Snacks.row := Snacks.Build 202%N "Cake" "food" 7500%float.
Definition tea : Snacks.row := Snacks.Build 203%N "Tea" "drink" 2.1%float.
Definition biscuit : Snacks.row := Snacks.Build 204%N "Biscuit" "food" 1.35%float.

Definition db0 : DB :=
  database.Build [roomA; roomB] [user1] [] [coffee; cake; tea; biscuit] [].

(** The clock reads hour 1000; the next identifier drawn is 500. *)
Definition env0 : services.Env :=
  services.BuildEnv (1000 * hour) (1000 * hour) 500%N (1000 * hour).

Definition line (id : uuid.UUID) (quantity : Z) : SnackLine.t :=
  SnackLine.Build id quantity.

(** user1 books room A from hour 1001 to hour 1003 for five visitors. *)
Definition book (lines : list SnackLine.t) : CreateReservationRequest.t :=
  CreateReservationRequest.Build 1%N 100%N (1001 * hour) (1003 * hour) 5 lines.

Definition quote (lines : list SnackLine.t) : ReservationCalculationRequest.t :=
  ReservationCalculationRequest.Build 1%N lines (1001 * hour) (1003 * hour).

(** The reservation stored by the booking [book []]: two hours of room A. *)
Definition booked : Reservations.row :=
  Reservations.Build 500%N 1%N 100%N (1001 * hour) (1003 * hour) 5
    200000%float pending (1000 * hour) (1000 * hour).

(** The same booking for eleven visitors, one more than room A holds. *)
Definition overbook : CreateReservationRequest.t :=
  CreateReservationRequest.Build 1%N 100%N (1001 * hour) (1003 * hour) 11 [].

(** The database once the booking [book lines] is committed. *)
Definition db1 (lines : list SnackLine.t) : DB :=
  services.committed db0 (services.CreateReservation env0 db0 (book lines)).

(** The booking [book []] is cancelled, the same hours are booked again
    under the identifier 501, both by calls of the service. *)
Definition db2 : DB :=
  let cancelled :=
    services.committed (db1 [])
      (services.UpdateReservationStatus
         (services.BuildEnv (1000 * hour) (1000 * hour) 0%N (1000 * hour))
         (db1 [])
         (UpdateReservationStatusRequest.Build 500%N "cancelled")) in
  services.committed cancelled
    (services.CreateReservation
       (services.BuildEnv (1000 * hour) (1000 * hour) 501%N (1000 * hour))
       cancelled (book [])).

(** A later call: the clock still reads hour 1000, the next identifier
    drawn is 501. *)
Definition env1 : services.Env :=
  services.BuildEnv (1000 * hour) (1000 * hour) 501%N (1000 * hour).

End example.

(** ** internal/models: room schedule and snack creation *)

Module RoomScheduleQuery.
Record t : Type := Build {
  StartDateTime : time.Time;
  EndDateTime : time.Time }.
End RoomScheduleQuery.

Module RoomScheduleBlock.
Record t : Type := Build {
  ReservationID : uuid.UUID;
  StartTime : time.Time;
  EndTime : time.Time;
  Status : string;
  VisitorCount : Z }.
End RoomScheduleBlock.

Module RoomScheduleResponse.
Record t : Type := Build {
  RoomID : uuid.UUID;
  Schedules : list RoomScheduleBlock.t;
  StartTime : time.Time;
  EndTime : time.Time }.
End RoomScheduleResponse.

Module CreateSnackRequest.
Record t : Type := Build {
  Name : string;
  Category : string;
  Price : float }.
End CreateSnackRequest.

Module CreateSnackResponse.
Record t : Type := Build {
  ID : uuid.UUID;
  Name : string;
  Category : string;
  Price : float;
  CreatedAt : time.Time }.
End CreateSnackResponse.

(** ** internal/services: RoomService *)

Module RoomService.

Import database models.

(** [status NOT IN ('cancelled', 'completed')] *)
Definition active (status : reservation_status) : bool :=
  match status with
  | cancelled | completed => false
  | pending | confirmed => true
  end.

(** [SELECT EXISTS(SELECT 1 FROM reservations WHERE room_id = $1
    AND status NOT IN ('cancelled', 'completed'))] *)
Definition hasActiveReservations (db : DB) (id : uuid.UUID) : bool :=
  existsb (fun r => uuid.eqb (Reservations.room_id r) id
                    && active (Reservations.status r))
          (reservations db).

(** [DELETE FROM rooms WHERE id = $1], with the number of rows affected.
    The foreign key [reservations_room_id_fkey] has no ON DELETE action: a
    room that a reservation refers to cannot be deleted. *)
Definition delete_room (db : DB) (id : uuid.UUID) : result (Z * DB) :=
  let hit rm := uuid.eqb (Rooms.id rm) id in
  if existsb hit (rooms db)
     && existsb (fun r => uuid.eqb (Reservations.room_id r) id) (reservations db)
  then
    Err "pq: update or delete on table rooms violates foreign key constraint reservations_room_id_fkey on table reservations"
  else
    Ok (Z.of_nat (List.length (filter hit (rooms db))),
        database.Build (filter (fun rm => negb (hit rm)) (rooms db))
          (users db) (reservations db) (snacks db) (reservation_snacks db)).

Definition DeleteRoom (db : DB) (id : uuid.UUID) : result DB :=
  (* Check if room has any reservations *)
  if hasActiveReservations db id then
    Err "cannot delete room with active reservations"
  else
    (* Delete room *)
    '(rowsAffected, db') <- wrap "error deleting room" (delete_room db id) ;;
    if rowsAffected =? 0 then Err "room not found"
    else Ok db'.

(** The time condition of "Query reservations within the time range",
    with [$2 = StartDateTime] and [$3 = EndDateTime]. *)
Definition inRange (StartDateTime EndDateTime start_time end_time : time.Time)
    : bool :=
  ((StartDateTime <=? start_time) && (start_time <? EndDateTime))
  || ((StartDateTime <? end_time) && (end_time <=? EndDateTime))
  || ((start_time <=? StartDateTime) && (EndDateTime <=? end_time)).

(** [ORDER BY start_time ASC]: rows with the same start time keep the
    order of the table. *)
Fixpoint insertByStartTime (r : Reservations.row) (rs : list Reservations.row)
    : list Reservations.row :=
  match rs with
  | [] => [r]
  | r' :: rs' =>
      if Reservations.start_time r <=? Reservations.start_time r'
      then r :: rs
      else r' :: insertByStartTime r rs'
  end.

Fixpoint orderByStartTime (rs : list Reservations.row)
    : list Reservations.row :=
  match rs with
  | [] => []
  | r :: rs' => insertByStartTime r (orderByStartTime rs')
  end.

(** One iteration of [for rows.Next()] of [GetRoomSchedule]. *)
Definition scanBlock (r : Reservations.row) : RoomScheduleBlock.t :=
  RoomScheduleBlock.Build (Reservations.id r)
    (Reservations.start_time r) (Reservations.end_time r)
    (reservation_status_out (Reservations.status r))
    (Reservations.visitor_count r).

(** The rows of "Query reservations within the time range". *)
Definition querySchedule (db : DB) (roomID : uuid.UUID)
    (query : RoomScheduleQuery.t) : list Reservations.row :=
  orderByStartTime
    (filter (fun r =>
               uuid.eqb (Reservations.room_id r) roomID
               && inRange (RoomScheduleQuery.StartDateTime query)
                    (RoomScheduleQuery.EndDateTime query)
                    (Reservations.start_time r) (Reservations.end_time r))
            (reservations db)).

Definition GetRoomSchedule (db : DB) (roomID : uuid.UUID)
    (query : RoomScheduleQuery.t) : result RoomScheduleResponse.t :=
  (* First, check if room exists *)
  let exists_ := existsb (fun rm => uuid.eqb (Rooms.id rm) roomID) (rooms db) in
  if negb exists_ then Err "room not found"
  else
    (* Query reservations within the time range *)
    let schedules := map scanBlock (querySchedule db roomID query) in
    Ok (RoomScheduleResponse.Build roomID schedules
          (RoomScheduleQuery.StartDateTime query)
          (RoomScheduleQuery.EndDateTime query)).

End RoomService.

(** ** internal/services: SnackService *)

Module SnackService.

Import database models.

(** What one call of [CreateSnack] observes of the world. *)
Record Env : Type := BuildEnv {
  New : uuid.UUID;     (* [uuid.New()] *)
  Now : time.Time }.   (* [time.Now()] *)

(** [INSERT INTO snacks]: [snacks.id] is the key that
    [reservation_snacks.snack_id] refers to. *)
Definition insert_snack (db : DB) (s : Snacks.row) : result DB :=
  if existsb (fun s' => uuid.eqb (Snacks.id s') (Snacks.id s)) (snacks db) then
    Err "pq: duplicate key value violates unique constraint snacks_pkey"
  else Ok (with_snacks db (snacks db ++ [s])%list).

Definition CreateSnack (env : Env) (db : DB) (req : CreateSnackRequest.t)
    : result (CreateSnackResponse.t * DB) :=
  (* Generate new UUID for the snack *)
  let snackID := New env in
  let createdAt := Now env in
  (* Insert new snack *)
  db' <- wrap "error creating snack"
           (insert_snack db
              (Snacks.Build snackID (CreateSnackRequest.Name req)
                 (CreateSnackRequest.Category req)
                 (CreateSnackRequest.Price req))) ;;
  Ok (CreateSnackResponse.Build snackID (CreateSnackRequest.Name req)
        (CreateSnackRequest.Category req) (CreateSnackRequest.Price req)
        createdAt,
      db').

End SnackService.

(** ** internal/handlers: RoomHandler and SnackHandler *)

Module RoomHandler.

Import handlers.

(** [gin.H{"message": ...}] *)
Record message : Type := H_message { text : string }.

Definition DeleteRoom (db : database.DB) (id : uuid.UUID)
    : response message * database.DB :=
  match RoomService.DeleteRoom db id with
  | Err err =>
      (if String.eqb err "room not found" then
         Respond http.StatusNotFound (H_error err)
       else if String.eqb err "cannot delete room with active reservations" then
         Respond http.StatusConflict (H_error err)
       else Respond http.StatusInternalServerError (H_error err),
       db)
  | Ok db' =>
      (Respond http.StatusOK (JSON (H_message "room deleted successfully")), db')
  end.

Definition GetRoomSchedule (db : database.DB) (roomID : uuid.UUID)
    (query : RoomScheduleQuery.t) : response RoomScheduleResponse.t :=
  (* Validate time range *)
  if time.After (RoomScheduleQuery.StartDateTime query)
                (RoomScheduleQuery.EndDateTime query) then
    Respond http.StatusBadRequest
      (H_error "start_datetime must be before end_datetime")
  else
    (* Get room schedule from service *)
    match RoomService.GetRoomSchedule db roomID query with
    | Err err =>
        if String.eqb err "room not found" then
          Respond http.StatusNotFound (H_error "room not found")
        else
          Respond http.StatusInternalServerError
            (H_error ("error fetching room schedule: " ++ err))
    | Ok resp => Respond http.StatusOK (JSON resp)
    end.

End RoomHandler.

Module SnackHandler.

Import handlers.

Definition CreateSnack (env : SnackService.Env) (db : database.DB)
    (req : CreateSnackRequest.t)
    : response CreateSnackResponse.t * database.DB :=
  (* Validate price is positive *)
  if PrimFloat.leb (CreateSnackRequest.Price req) 0 then
    (Respond http.StatusBadRequest (H_error "price must be greater than zero"),
     db)
  else
    (* Create snack *)
    match SnackService.CreateSnack env db req with
    | Err err => (Respond http.StatusInternalServerError (H_error err), db)
    | Ok (resp, db') => (Respond http.StatusCreated (JSON resp), db')
    end.

End SnackHandler.

(** ** Integrity of the stored data *)

Module integrity.

Import database.

(** The foreign keys of [reservations] and of [reservation_snacks]. *)
Definition foreign_keys (db : DB) : bool :=
  forallb (fun r =>
             existsb (fun rm => uuid.eqb (Rooms.id rm) (Reservations.room_id r))
                     (rooms db)
             && user_exists db (Reservations.user_id r))
          (reservations db)
  && forallb (fun rs =>
                reservation_exists db (ReservationSnacks.reservation_id rs)
                && existsb (fun s => uuid.eqb (Snacks.id s)
                                       (ReservationSnacks.snack_id rs))
                           (snacks db))
             (reservation_snacks db).

(** [CHECK (quantity > 0)] on [reservation_snacks]. *)
Definition positive_quantities (db : DB) : bool :=
  forallb (fun rs => 0 <? ReservationSnacks.quantity rs) (reservation_snacks db).

(** All the constraints of the migrations that the model carries. *)
Definition holds (db : DB) : Prop :=
  rooms_pkey db
  /\ snacks_pkey db
  /\ unique (map Reservations.id (reservations db)) = true
  /\ valid_time_range db
  /\ positive_quantities db = true
  /\ foreign_keys db = true.

End integrity.

(** * Properties *)

Import database models.

(** ** Overlap check *)

Section Overlap.

Variables S E s e : time.Time.

Lemma intersects_timesOverlap :
  spec.intersects S E s e = true -> services.timesOverlap S E s e = true.
Proof.
  unfold spec.intersects, services.timesOverlap.
  rewrite !orb_true_iff, !andb_true_iff, !Z.leb_le, !Z.ltb_lt. lia.
Qed.

Lemma timesOverlap_intersects_aux :
  s < e -> S < E ->
  services.timesOverlap S E s e = spec.intersects S E s e.
Proof.
  intros Hse HSE. apply eq_true_iff_eq.
  unfold spec.intersects, services.timesOverlap.
  rewrite !orb_true_iff, !andb_true_iff, !Z.leb_le, !Z.ltb_lt. lia.
Qed.

(** C2. For intervals with [s < e] and [S < E], the three-clause
    condition of the overlap query, (s <= S and e > S) or (s < E and
    e >= E) or (s >= S and e <= E), holds exactly when the single
    intersection test s < E and e > S does. *)
Theorem timesOverlap_intersects :
  s < e -> S < E ->
  services.timesOverlap S E s e = spec.intersects S E s e.
Proof.
  intros Hse HSE.
  destruct (services.timesOverlap S E s e) eqn:Hcode; symmetry.
  - (* some clause holds: the intervals meet *)
    unfold services.timesOverlap in Hcode. unfold spec.intersects.
    apply andb_true_iff. rewrite !Z.ltb_lt.
    apply orb_true_iff in Hcode as [Hcode | H3].
    + apply orb_true_iff in Hcode as [H1 | H2].
      * apply andb_true_iff in H1 as [H1a H1b].
        apply Z.leb_le in H1a. apply Z.ltb_lt in H1b. lia.
      * apply andb_true_iff in H2 as [H2a H2b].
        apply Z.ltb_lt in H2a. apply Z.leb_le in H2b. lia.
    + apply andb_true_iff in H3 as [H3a H3b].
      apply Z.leb_le in H3a. apply Z.leb_le in H3b. lia.
  - (* no clause holds: the intervals are apart *)
    destruct (spec.intersects S E s e) eqn:Hspec; [ | reflexivity ].
    apply intersects_timesOverlap in Hspec. congruence.
Qed.

End Overlap.

Lemma timesOverlap_intersects_witness :
  services.timesOverlap 2 4 1 3 = spec.intersects 2 4 1 3.
Proof. apply timesOverlap_intersects; lia. Defined.

(** ** Time constraints *)

Section TimeConstraints.

Variables now S E : time.Time.

Lemma Sub_lt_iff (d : time.Duration) :
  time.minDuration < d <= time.maxDuration ->
  (time.Sub E S <? d) = (E - S <? d).
Proof.
  unfold time.Sub, time.minDuration, time.maxDuration. intros Hd.
  destruct (Z.ltb_spec (E - S) (- 2 ^ 63));
    [ | destruct (Z.ltb_spec (2 ^ 63 - 1) (E - S)) ];
    apply eq_true_iff_eq; rewrite !Z.ltb_lt; lia.
Qed.

Lemma Sub_gt_iff (d : time.Duration) :
  time.minDuration <= d < time.maxDuration ->
  (d <? time.Sub E S) = (d <? E - S).
Proof.
  unfold time.Sub, time.minDuration, time.maxDuration. intros Hd.
  destruct (Z.ltb_spec (E - S) (- 2 ^ 63));
    [ | destruct (Z.ltb_spec (2 ^ 63 - 1) (E - S)) ];
    apply eq_true_iff_eq; rewrite !Z.ltb_lt; lia.
Qed.

Lemma validateTimeConstraints_cases :
  (services.validateTimeConstraints now S E = Ok tt
   /\ ~ spec.violates_time_constraints now S E)
  \/ (exists msg,
        services.validateTimeConstraints now S E = Err msg
        /\ services.timeConstraintError msg = true
        /\ spec.violates_time_constraints now S E).
Proof.
  unfold services.validateTimeConstraints, spec.violates_time_constraints,
    time.Before, time.After.
  rewrite Sub_lt_iff, Sub_gt_iff by (vm_compute; intuition discriminate).
  change (30 * time.Minute) with 1800000000000.
  change (24 * time.Hour) with 86400000000000.
  destruct (Z.ltb_spec S now).
  { right. eexists. split; [reflexivity | split; [reflexivity | lia]]. }
  destruct (Z.ltb_spec S E); cbn [negb].
  2: { right. eexists. split; [reflexivity | split; [reflexivity | lia]]. }
  destruct (Z.ltb_spec (E - S) 1800000000000).
  { right. eexists. split; [reflexivity | split; [reflexivity | lia]]. }
  destruct (Z.ltb_spec 86400000000000 (E - S)).
  { right. eexists. split; [reflexivity | split; [reflexivity | lia]]. }
  left. split; [reflexivity | lia].
Qed.

Lemma validateTimeConstraints_ok :
  services.validateTimeConstraints now S E = Ok tt
  <-> ~ spec.violates_time_constraints now S E.
Proof.
  destruct validateTimeConstraints_cases as [[H1 H2] | (msg & H1 & _ & H2)];
    rewrite H1; split; intros; try assumption; try reflexivity;
    try discriminate; contradiction.
Qed.

Lemma validateTimeConstraints_ok_lt :
  services.validateTimeConstraints now S E = Ok tt -> S < E.
Proof.
  intros H. apply validateTimeConstraints_ok in H.
  unfold spec.violates_time_constraints in H.
  change (30 * time.Minute) with 1800000000000 in H. lia.
Qed.

End TimeConstraints.

(** ** The loops of the service in closed form *)

Section Loops.

Variable lines : list SnackLine.t.

Lemma fold_scanOrder (rows : list Snacks.row) :
  forall (acc : list services.snackOrder.t) (total : float),
    fold_left (services.scanOrder lines) rows (acc, total)
    = ((acc ++ flat_map
                 (fun s =>
                    match services.findLine lines (Snacks.id s) with
                    | Some l => [views.orderOf s l]
                    | None => []
                    end) rows)%list,
       fold_left PrimFloat.add
         (map views.subtotal
              (flat_map
                 (fun s =>
                    match services.findLine lines (Snacks.id s) with
                    | Some l => [views.orderOf s l]
                    | None => []
                    end) rows))
         total).
Proof.
  induction rows as [| s rows IH]; intros acc total; cbn [fold_left flat_map].
  - now rewrite app_nil_r.
  - unfold services.scanOrder at 2.
    destruct (services.findLine lines (Snacks.id s)) as [l |].
    + rewrite IH, <- app_assoc. reflexivity.
    + apply IH.
Qed.

Lemma fold_scanQuote (rows : list Snacks.row) :
  forall acc : list services.snackQuote.t,
    fold_left (services.scanQuote lines) rows acc
    = (acc ++ flat_map
                (fun s =>
                   match services.findLine lines (Snacks.id s) with
                   | Some l =>
                       [services.snackQuote.Build (Snacks.id s) (Snacks.name s)
                          (Snacks.category s) (Snacks.price s)
                          (SnackLine.Quantity l)]
                   | None => []
                   end) rows)%list.
Proof.
  induction rows as [| s rows IH]; intros acc; cbn [fold_left flat_map].
  - now rewrite app_nil_r.
  - unfold services.scanQuote at 2.
    destruct (services.findLine lines (Snacks.id s)) as [l |].
    + rewrite IH, <- app_assoc. reflexivity.
    + apply IH.
Qed.

Lemma fold_addQuote (rows : list Snacks.row) :
  forall response : ReservationCalculationResponse.t,
    fold_left services.addQuote
      (flat_map
         (fun s =>
            match services.findLine lines (Snacks.id s) with
            | Some l =>
                [services.snackQuote.Build (Snacks.id s) (Snacks.name s)
                   (Snacks.category s) (Snacks.price s)
                   (SnackLine.Quantity l)]
            | None => []
            end) rows)
      response
    = ReservationCalculationResponse.Build
        (ReservationCalculationResponse.Room response)
        (ReservationCalculationResponse.Snacks response
           ++ flat_map
                (fun s =>
                   match services.findLine lines (Snacks.id s) with
                   | Some l => [views.itemOf s l]
                   | None => []
                   end) rows)%list
        (fold_left PrimFloat.add
           (map views.subtotal
              (flat_map
                 (fun s =>
                    match services.findLine lines (Snacks.id s) with
                    | Some l => [views.orderOf s l]
                    | None => []
                    end) rows))
           (ReservationCalculationResponse.TotalCost response)).
Proof.
  induction rows as [| s rows IH]; intros response; cbn [fold_left flat_map].
  - rewrite app_nil_r. now destruct response.
  - destruct (services.findLine lines (Snacks.id s)) as [l |].
    + cbn [app fold_left map]. rewrite IH. cbn. rewrite <- app_assoc.
      reflexivity.
    + apply IH.
Qed.

End Loops.

(** ** The inserts *)

Section Inserts.

Lemma insert_reservation_inv (db db' : DB) (r : Reservations.row) :
  insert_reservation db r = Ok db' ->
  db' = with_reservations db (reservations db ++ [r])%list
  /\ Reservations.start_time r < Reservations.end_time r
  /\ existsb (fun r' => uuid.eqb (Reservations.id r') (Reservations.id r))
             (reservations db) = false
  /\ existsb (fun rm => uuid.eqb (Rooms.id rm) (Reservations.room_id r))
             (rooms db) = true
  /\ existsb (fun u => uuid.eqb (Users.id u) (Reservations.user_id r))
             (users db) = true.
Proof.
  unfold insert_reservation.
  destruct (Z.ltb_spec (Reservations.start_time r) (Reservations.end_time r));
    cbn [negb]; [ | discriminate ].
  destruct (existsb _ (reservations db)); [ discriminate | ].
  destruct (existsb _ (rooms db)); cbn [negb]; [ | discriminate ].
  destruct (existsb _ (users db)); cbn [negb]; [ | discriminate ].
  intros [= <-]. auto.
Qed.

Lemma insert_reservation_Ok (db : DB) (r : Reservations.row) :
  Reservations.start_time r < Reservations.end_time r ->
  existsb (fun r' => uuid.eqb (Reservations.id r') (Reservations.id r))
          (reservations db) = false ->
  existsb (fun rm => uuid.eqb (Rooms.id rm) (Reservations.room_id r))
          (rooms db) = true ->
  existsb (fun u => uuid.eqb (Users.id u) (Reservations.user_id r))
          (users db) = true ->
  insert_reservation db r
  = Ok (with_reservations db (reservations db ++ [r])%list).
Proof.
  intros Hlt Hpk Hrm Hu. unfold insert_reservation.
  apply Z.ltb_lt in Hlt. now rewrite Hlt, Hpk, Hrm, Hu.
Qed.

Lemma insertSnackOrders_inv (rid : uuid.UUID)
    (orders : list services.snackOrder.t) :
  forall db db' : DB,
    services.insertSnackOrders db rid orders = Ok db' ->
    db' = with_reservation_snacks db
            (reservation_snacks db ++ map (views.orderRow rid) orders)%list.
Proof.
  induction orders as [| o orders IH]; intros db db'; cbn [services.insertSnackOrders].
  - intros [= <-]. cbn [map]. rewrite app_nil_r. now destruct db.
  - unfold insert_reservation_snack.
    destruct (negb _); [ discriminate | ].
    destruct (negb _); [ discriminate | ].
    destruct (negb _); [ discriminate | ].
    cbn [wrap bind]. intros H. apply IH in H. subst db'.
    unfold with_reservation_snacks. cbn. rewrite <- app_assoc. reflexivity.
Qed.

Lemma insertSnackOrders_Ok (rid : uuid.UUID)
    (orders : list services.snackOrder.t) :
  forall db : DB,
    existsb (fun r => uuid.eqb (Reservations.id r) rid) (reservations db) = true ->
    Forall (fun o =>
              0 < services.snackOrder.Quantity o
              /\ existsb (fun s => uuid.eqb (Snacks.id s) (services.snackOrder.ID o))
                         (snacks db) = true)
           orders ->
    services.insertSnackOrders db rid orders
    = Ok (with_reservation_snacks db
            (reservation_snacks db ++ map (views.orderRow rid) orders)%list).
Proof.
  induction orders as [| o orders IH]; intros db Hrid Hall;
    cbn [services.insertSnackOrders].
  - cbn [map]. rewrite app_nil_r. now destruct db.
  - inversion Hall as [| ? ? [Hq Hs] Hall']; subst.
    unfold insert_reservation_snack. cbn [ReservationSnacks.quantity
      ReservationSnacks.reservation_id ReservationSnacks.snack_id].
    apply Z.ltb_lt in Hq. rewrite Hq, Hrid, Hs. cbn [negb wrap bind].
    rewrite IH by assumption.
    unfold with_reservation_snacks. cbn. rewrite <- app_assoc. reflexivity.
Qed.

Lemma insertSnackOrders_Err (rid : uuid.UUID)
    (orders : list services.snackOrder.t) :
  forall (db : DB) (msg : string),
    services.insertSnackOrders db rid orders = Err msg ->
    strings.HasPrefix msg "error creating " = true.
Proof.
  induction orders as [| o orders IH]; intros db msg;
    cbn [services.insertSnackOrders]; [ discriminate | ].
  destruct (insert_reservation_snack db _) as [db1 | m]; cbn [wrap bind].
  - apply IH.
  - intros [= <-]. reflexivity.
Qed.

End Inserts.

(** ** CreateReservation and CalculateReservationCost, loops unfolded *)

Section Unfolded.

Variables (env : services.Env) (db : DB).

Lemma CreateReservation_eq (req : CreateReservationRequest.t) :
  services.CreateReservation env db req
  = (_ <- services.validateTimeConstraints (services.Now env)
            (CreateReservationRequest.StartTime req)
            (CreateReservationRequest.EndTime req) ;;
     match services.queryAvailableRoom db (CreateReservationRequest.RoomID req) with
     | None => Err "room not found or inactive"
     | Some rm =>
         if Rooms.capacity rm <? CreateReservationRequest.VisitorCount req then
           Err ("visitor count exceeds room capacity of "
                ++ fmt.d (Rooms.capacity rm))
         else if 0 <? services.countOverlapping db
                        (CreateReservationRequest.RoomID req)
                        (CreateReservationRequest.StartTime req)
                        (CreateReservationRequest.EndTime req) then
           Err "room is already booked for the selected time period"
         else
           db1 <- wrap "error creating reservation"
                    (insert_reservation db
                       (views.newReservation env req
                          (views.createTotal db rm req))) ;;
           db2 <- services.insertSnackOrders db1 (services.uuid_generate_v4 env)
                    (views.orders db (CreateReservationRequest.Snacks req)) ;;
           Ok (CreateReservationResponse.Build (services.uuid_generate_v4 env)
                 "pending" (views.createTotal db rm req)
                 (services.NowAtReturn env),
               db2)
     end).
Proof.
  unfold services.CreateReservation.
  destruct (services.validateTimeConstraints _ _ _); cbn [bind]; [ | reflexivity ].
  destruct (services.queryAvailableRoom _ _) as [rm |]; [ | reflexivity ].
  destruct (_ <? _); [ reflexivity | ].
  destruct (_ <? _); [ reflexivity | ].
  rewrite fold_scanOrder. reflexivity.
Qed.

Lemma CalculateReservationCost_eq (req : ReservationCalculationRequest.t) :
  services.CalculateReservationCost env db req
  = (_ <- services.validateTimeConstraints (services.Now env)
            (ReservationCalculationRequest.StartTime req)
            (ReservationCalculationRequest.EndTime req) ;;
     match services.queryAvailableRoom db
             (ReservationCalculationRequest.RoomID req) with
     | None => Err "room not found or inactive"
     | Some room =>
         let hours :=
           time.Hours (time.Sub (ReservationCalculationRequest.EndTime req)
                                (ReservationCalculationRequest.StartTime req)) in
         let roomCost := (Rooms.price_per_hour room * hours)%float in
         Ok (ReservationCalculationResponse.Build
               (RoomCost.Build (Rooms.id room) (Rooms.name room)
                  (Rooms.price_per_hour room) hours roomCost)
               (views.items db (ReservationCalculationRequest.Snacks req))
               (fold_left PrimFloat.add
                  (map views.subtotal
                     (views.orders db (ReservationCalculationRequest.Snacks req)))
                  roomCost))
     end).
Proof.
  unfold services.CalculateReservationCost.
  destruct (services.validateTimeConstraints _ _ _); cbn [bind]; [ | reflexivity ].
  destruct (services.queryAvailableRoom _ _) as [room |]; [ | reflexivity ].
  rewrite fold_scanQuote. cbn [app]. rewrite fold_addQuote. reflexivity.
Qed.

End Unfolded.

(** ** Outcomes of CreateReservation *)

Section CreateOutcomes.

Variables (env : services.Env) (db : DB) (req : CreateReservationRequest.t).

Let RoomID := CreateReservationRequest.RoomID req.
Let StartTime := CreateReservationRequest.StartTime req.
Let EndTime := CreateReservationRequest.EndTime req.

(** A successful call went through every check, answered with the
    closed-form total, and committed the closed-form database. *)
Lemma CreateReservation_Ok_inv (resp : CreateReservationResponse.t) (db' : DB) :
  services.CreateReservation env db req = Ok (resp, db') ->
  exists rm,
    services.validateTimeConstraints (services.Now env) StartTime EndTime = Ok tt
    /\ services.queryAvailableRoom db RoomID = Some rm
    /\ CreateReservationRequest.VisitorCount req <= Rooms.capacity rm
    /\ services.countOverlapping db RoomID StartTime EndTime = 0
    /\ existsb (fun r => uuid.eqb (Reservations.id r) (services.uuid_generate_v4 env))
               (reservations db) = false
    /\ resp = CreateReservationResponse.Build (services.uuid_generate_v4 env)
                "pending" (views.createTotal db rm req) (services.NowAtReturn env)
    /\ db' = views.created env db rm req.
Proof.
  rewrite CreateReservation_eq. fold RoomID StartTime EndTime.
  destruct (services.validateTimeConstraints _ _ _) as [[] | ?];
    cbn [bind]; [ | discriminate ].
  destruct (services.queryAvailableRoom _ _) as [rm |]; [ | discriminate ].
  destruct (Z.ltb_spec (Rooms.capacity rm)
              (CreateReservationRequest.VisitorCount req)); [ discriminate | ].
  destruct (Z.ltb_spec 0 (services.countOverlapping db RoomID StartTime EndTime));
    [ discriminate | ].
  destruct (insert_reservation db _) as [db1 |] eqn:Hins;
    cbn [wrap bind]; [ | discriminate ].
  destruct (services.insertSnackOrders db1 _ _) as [db2 |] eqn:Hsn;
    cbn [bind]; [ | discriminate ].
  intros [= <- <-]. exists rm.
  apply insert_reservation_inv in Hins as (-> & _ & Hpk & _).
  apply insertSnackOrders_inv in Hsn. subst db2.
  assert (0 <= services.countOverlapping db RoomID StartTime EndTime)
    by (unfold services.countOverlapping; lia).
  repeat split; try assumption; try reflexivity. lia.
Qed.

Lemma error_creating_not_timeConstraintError (msg : string) :
  strings.HasPrefix msg "error creating " = true ->
  services.timeConstraintError msg = false.
Proof.
  destruct msg as [| c msg]; [ discriminate | ]. cbn [strings.HasPrefix].
  intros H. apply andb_true_iff in H as [Hc _].
  apply Ascii.eqb_eq in Hc. subst c. reflexivity.
Qed.

(** Once the time constraints hold, no later error of the call is an
    error of the time validation. *)
Lemma CreateReservation_later_errors (msg : string) :
  services.validateTimeConstraints (services.Now env) StartTime EndTime = Ok tt ->
  services.CreateReservation env db req = Err msg ->
  services.timeConstraintError msg = false.
Proof.
  intros Hv. rewrite CreateReservation_eq. fold RoomID StartTime EndTime.
  rewrite Hv. cbn [bind].
  destruct (services.queryAvailableRoom _ _) as [rm |];
    [ | intros [= <-]; reflexivity ].
  destruct (_ <? _); [ intros [= <-]; reflexivity | ].
  destruct (_ <? _); [ intros [= <-]; reflexivity | ].
  destruct (insert_reservation db _) as [db1 |];
    cbn [wrap bind]; [ | intros [= <-]; reflexivity ].
  destruct (services.insertSnackOrders db1 _ _) as [db2 |] eqn:Hsn;
    cbn [bind]; [ discriminate | ].
  intros [= <-]. apply insertSnackOrders_Err in Hsn.
  now apply error_creating_not_timeConstraintError.
Qed.

(** C9. A reservation created through [CreateReservation] is persisted
    with status pending, and the response of the service and of the
    handler reports the status "pending": there is no other initial
    status. *)
Theorem created_reservation_is_pending
    (resp : CreateReservationResponse.t) (db' : DB) :
  services.CreateReservation env db req = Ok (resp, db') ->
  CreateReservationResponse.Status resp = "pending"
  /\ (exists r,
        reservations db' = (reservations db ++ [r])%list
        /\ Reservations.id r = CreateReservationResponse.ReservationID resp
        /\ Reservations.status r = pending)
  /\ handlers.CreateReservation env db req
     = (handlers.Respond http.StatusCreated (handlers.JSON resp), db').
Proof.
  intros H. pose proof H as H0.
  apply CreateReservation_Ok_inv in H as (rm & Hv & _ & _ & _ & _ & -> & ->).
  split; [ reflexivity | split ].
  - eexists. cbn. repeat split.
  - unfold handlers.CreateReservation. rewrite H0.
    apply validateTimeConstraints_ok_lt in Hv.
    unfold time.Before. fold StartTime EndTime.
    destruct (Z.ltb_spec EndTime StartTime); [ lia | reflexivity ].
Qed.

End CreateOutcomes.

Lemma created_reservation_is_pending_witness :
  exists resp db',
    services.CreateReservation example.env0 example.db0
      (example.book [example.line 201%N 2]) = Ok (resp, db')
    /\ CreateReservationResponse.Status resp = "pending".
Proof.
  eexists. eexists.
  assert (H : services.CreateReservation example.env0 example.db0
                (example.book [example.line 201%N 2]) = Ok _) by (vm_compute; reflexivity).
  split; [ exact H | ].
  exact (proj1 (created_reservation_is_pending _ _ _ _ _ H)).
Defined.

(** ** Validation *)

Section Validation.

Variables (env : services.Env) (db : DB).

(** C4. [CreateReservation] and [CalculateReservationCost] reject a
    request with an error of the time validation exactly when its
    duration is shorter than 30 minutes or longer than 24 hours or its
    start lies in the past; a request that violates none of these passes
    the time validation. *)
Theorem time_constraints_enforced
    (req : CreateReservationRequest.t)
    (creq : ReservationCalculationRequest.t) :
  ((exists msg,
       services.CreateReservation env db req = Err msg
       /\ services.timeConstraintError msg = true)
   <-> spec.violates_time_constraints (services.Now env)
         (CreateReservationRequest.StartTime req)
         (CreateReservationRequest.EndTime req))
  /\ ((exists msg,
          services.CalculateReservationCost env db creq = Err msg
          /\ services.timeConstraintError msg = true)
      <-> spec.violates_time_constraints (services.Now env)
            (ReservationCalculationRequest.StartTime creq)
            (ReservationCalculationRequest.EndTime creq))
  /\ (forall S E,
        services.validateTimeConstraints (services.Now env) S E = Ok tt
        <-> ~ spec.violates_time_constraints (services.Now env) S E).
Proof.
  split; [ | split ].
  - destruct (validateTimeConstraints_cases (services.Now env)
                (CreateReservationRequest.StartTime req)
                (CreateReservationRequest.EndTime req))
      as [[Hv Hn] | (msg & Hv & Hm & Hviol)].
    + split; [ | contradiction ].
      intros (msg & Hc & Hm).
      rewrite (CreateReservation_later_errors _ _ _ _ Hv Hc) in Hm.
      discriminate.
    + split; [ now intros _ | intros _ ].
      exists msg. split; [ | assumption ].
      rewrite CreateReservation_eq, Hv. reflexivity.
  - destruct (validateTimeConstraints_cases (services.Now env)
                (ReservationCalculationRequest.StartTime creq)
                (ReservationCalculationRequest.EndTime creq))
      as [[Hv Hn] | (msg & Hv & Hm & Hviol)].
    + split; [ | contradiction ].
      intros (msg & Hc & Hm). revert Hc.
      rewrite CalculateReservationCost_eq, Hv. cbn [bind].
      destruct (services.queryAvailableRoom _ _); [ discriminate | ].
      intros [= <-]. discriminate.
    + split; [ now intros _ | intros _ ].
      exists msg. split; [ | assumption ].
      rewrite CalculateReservationCost_eq, Hv. reflexivity.
  - intros S E. apply validateTimeConstraints_ok.
Qed.

End Validation.

Lemma time_constraints_enforced_witness :
  exists msg,
    services.CreateReservation example.env0 example.db0
      (CreateReservationRequest.Build 1%N 100%N
         (1001 * example.hour) (1001 * example.hour + 10 * time.Minute) 5 [])
    = Err msg
    /\ services.timeConstraintError msg = true.
Proof.
  apply (proj2 (proj1 (time_constraints_enforced example.env0 example.db0
                         (CreateReservationRequest.Build 1%N 100%N
                            (1001 * example.hour)
                            (1001 * example.hour + 10 * time.Minute) 5 [])
                         (example.quote [])))).
  left. vm_compute. reflexivity.
Defined.

(** ** Keys *)

Lemma uuid_eqb_eq (a b : uuid.UUID) : uuid.eqb a b = true <-> a = b.
Proof. apply N.eqb_eq. Qed.

Lemma uuid_eqb_refl (a : uuid.UUID) : uuid.eqb a a = true.
Proof. apply N.eqb_refl. Qed.

Lemma uuid_eqb_sym (a b : uuid.UUID) : uuid.eqb a b = uuid.eqb b a.
Proof. apply N.eqb_sym. Qed.

Section Keys.

Context {A : Type} (key : A -> uuid.UUID).

Lemma unique_key_inj (l : list A) (x y : A) :
  unique (map key l) = true -> In x l -> In y l -> key x = key y -> x = y.
Proof.
  induction l as [| a l IH]; cbn [map unique In]; [ contradiction | ].
  intros Hu Hx Hy Hk. apply andb_true_iff in Hu as [Ha Hu].
  apply negb_true_iff in Ha.
  assert (Hfresh : forall z, In z l -> key a <> key z).
  { intros z Hz Heq.
    assert (existsb (uuid.eqb (key a)) (map key l) = true); [ | congruence ].
    apply existsb_exists. exists (key z). split.
    - now apply in_map.
    - now apply uuid_eqb_eq. }
  destruct Hx as [-> | Hx], Hy as [-> | Hy].
  - reflexivity.
  - now apply Hfresh in Hy.
  - symmetry in Hk. now apply Hfresh in Hx.
  - now apply IH.
Qed.

End Keys.

Lemma queryAvailableRoom_Some (db : DB) (id : uuid.UUID) (rm : Rooms.row) :
  services.queryAvailableRoom db id = Some rm ->
  In rm (rooms db) /\ Rooms.id rm = id /\ Rooms.status rm = available.
Proof.
  unfold services.queryAvailableRoom. intros H.
  apply find_some in H as [Hin H]. apply andb_true_iff in H as [Hid Hst].
  apply uuid_eqb_eq in Hid. repeat split; try assumption.
  now destruct (Rooms.status rm).
Qed.

(** ** Capacity *)

Section Capacity.

Variables (env : services.Env) (db : DB) (req : CreateReservationRequest.t).

(** C5. When the visitor count of a request exceeds the capacity of the
    requested room, [CreateReservation] returns an error and no
    reservation is created, whatever the requested interval and whatever
    the reservations already stored; the handler answers with an error
    body and leaves the database as it was. *)
Theorem over_capacity_rejected (rm : Rooms.row) :
  rooms_pkey db ->
  In rm (rooms db) ->
  Rooms.id rm = CreateReservationRequest.RoomID req ->
  Rooms.capacity rm < CreateReservationRequest.VisitorCount req ->
  (exists msg, services.CreateReservation env db req = Err msg)
  /\ services.committed db (services.CreateReservation env db req) = db
  /\ (exists code msg,
        handlers.CreateReservation env db req
        = (handlers.Respond code (handlers.H_error msg), db)
        /\ code <> http.StatusCreated).
Proof.
  intros Hpk Hin Hid Hcap.
  assert (H : exists msg, services.CreateReservation env db req = Err msg).
  { rewrite CreateReservation_eq.
    destruct (services.validateTimeConstraints _ _ _); cbn [bind];
      [ | now eexists ].
    destruct (services.queryAvailableRoom _ _) as [rm' |] eqn:Hq;
      [ | now eexists ].
    apply queryAvailableRoom_Some in Hq as (Hin' & Hid' & _).
    assert (rm' = rm) by (apply (unique_key_inj Rooms.id (rooms db)); congruence).
    subst rm'. apply Z.ltb_lt in Hcap. rewrite Hcap. now eexists. }
  destruct H as [msg H]. split; [ now exists msg | ].
  split; [ now rewrite H | ].
  unfold handlers.CreateReservation. rewrite H.
  destruct (time.Before _ _); [ eexists; eexists; split; [ reflexivity | discriminate ] | ].
  destruct (String.eqb msg _); [ eexists; eexists; split; [ reflexivity | discriminate ] | ].
  destruct (String.eqb msg _); [ eexists; eexists; split; [ reflexivity | discriminate ] | ].
  destruct (String.eqb msg _); eexists; eexists; (split; [ reflexivity | discriminate ]).
Qed.

End Capacity.

Lemma over_capacity_rejected_witness :
  exists msg,
    services.CreateReservation example.env0 example.db0
      (CreateReservationRequest.Build 1%N 100%N
         (1001 * example.hour) (1003 * example.hour) 11 [])
    = Err msg.
Proof.
  refine (proj1 (over_capacity_rejected example.env0 example.db0 _ example.roomA
                   _ _ _ _)).
  - reflexivity.
  - simpl. auto.
  - reflexivity.
  - simpl. lia.
Defined.

(** ** When CreateReservation succeeds *)

Section CreateSucceeds.

Variables (env : services.Env) (db : DB) (req : CreateReservationRequest.t).

Let RoomID := CreateReservationRequest.RoomID req.
Let StartTime := CreateReservationRequest.StartTime req.
Let EndTime := CreateReservationRequest.EndTime req.
Let lines := CreateReservationRequest.Snacks req.

Lemma orders_inv (o : services.snackOrder.t) :
  In o (views.orders db lines) ->
  exists s l,
    In s (snacks db) /\ In l lines
    /\ SnackLine.SnackID l = Snacks.id s
    /\ services.findLine lines (Snacks.id s) = Some l
    /\ o = views.orderOf s l.
Proof.
  unfold views.orders. intros H.
  apply in_flat_map in H as (s & Hs & Ho).
  apply filter_In in Hs as [Hs _].
  destruct (services.findLine lines (Snacks.id s)) as [l |] eqn:Hl;
    [ | contradiction ].
  destruct Ho as [<- | []]. exists s, l.
  pose proof Hl as Hl'. apply find_some in Hl' as [Hin Hid].
  apply uuid_eqb_eq in Hid. auto.
Qed.

Lemma CreateReservation_Ok (rm : Rooms.row) :
  services.validateTimeConstraints (services.Now env) StartTime EndTime = Ok tt ->
  services.queryAvailableRoom db RoomID = Some rm ->
  CreateReservationRequest.VisitorCount req <= Rooms.capacity rm ->
  services.countOverlapping db RoomID StartTime EndTime = 0 ->
  reservation_exists db (services.uuid_generate_v4 env) = false ->
  user_exists db (CreateReservationRequest.UserID req) = true ->
  spec.positive_quantities lines = true ->
  services.CreateReservation env db req
  = Ok (CreateReservationResponse.Build (services.uuid_generate_v4 env)
          "pending" (views.createTotal db rm req) (services.NowAtReturn env),
        views.created env db rm req).
Proof.
  intros Hv Hq Hcap Hcount Hfresh Huser Hpos.
  rewrite CreateReservation_eq. fold RoomID StartTime EndTime lines.
  rewrite Hv, Hq, Hcount. cbn [bind].
  destruct (Z.ltb_spec (Rooms.capacity rm)
              (CreateReservationRequest.VisitorCount req)); [ lia | ].
  cbn [Z.ltb Z.compare].
  rewrite insert_reservation_Ok; cbn [wrap bind]; try assumption.
  - rewrite insertSnackOrders_Ok.
    + reflexivity.
    + cbn [with_reservations reservations]. rewrite existsb_app.
      cbn. rewrite uuid_eqb_refl. now rewrite orb_true_r.
    + apply Forall_forall. intros o Ho.
      apply orders_inv in Ho as (s & l & Hs & Hl & _ & _ & ->).
      cbn [views.orderOf services.snackOrder.Quantity services.snackOrder.ID
           with_reservations snacks].
      split.
      * unfold spec.positive_quantities in Hpos.
        rewrite forallb_forall in Hpos. apply Hpos in Hl. now apply Z.ltb_lt.
      * apply existsb_exists. exists s. split; [ assumption | apply uuid_eqb_refl ].
  - now apply validateTimeConstraints_ok_lt in Hv.
  - cbn. apply queryAvailableRoom_Some in Hq as (Hin & Hid & _).
    apply existsb_exists. exists rm. split; [ assumption | ].
    now apply uuid_eqb_eq.
Qed.

End CreateSucceeds.

(** ** UpdateReservationStatus *)

Section Update.

Variables (env : services.Env) (db : DB)
          (req : UpdateReservationStatusRequest.t).

Let id := UpdateReservationStatusRequest.ReservationID req.

Lemma IsValid_in (s : string) :
  IsValid s = true -> exists status, reservation_status_in s = Ok status.
Proof.
  unfold IsValid, reservation_status_in, ReservationStatusPending,
    ReservationStatusConfirmed, ReservationStatusCancelled,
    ReservationStatusCompleted.
  destruct (String.eqb s "pending"); [ now eexists | ].
  destruct (String.eqb s "confirmed"); [ now eexists | ].
  destruct (String.eqb s "cancelled"); [ now eexists | ].
  destruct (String.eqb s "completed"); [ now eexists | discriminate ].
Qed.

(** The table [reservations] after the UPDATE statement. *)
Lemma UpdateReservationStatus_Ok_inv (ev : ReservationEvent.t) (db' : DB) :
  services.UpdateReservationStatus env db req = Ok (ev, db') ->
  exists status,
    reservation_status_in (UpdateReservationStatusRequest.Status req) = Ok status
    /\ db' = with_reservations db
               (map (fun r =>
                       if uuid.eqb (Reservations.id r) id
                       then Reservations.set_status status
                              (services.CURRENT_TIMESTAMP env) r
                       else r)
                    (reservations db)).
Proof.
  unfold services.UpdateReservationStatus. fold id.
  destruct (IsValid _); cbn [negb]; [ | discriminate ].
  destruct (reservation_status_in _) as [status |]; cbn [wrap bind];
    [ | discriminate ].
  destruct (_ =? 0); [ discriminate | ].
  destruct (services.QueryRow _); cbn [wrap bind]; [ | discriminate ].
  intros [= <- <-]. now exists status.
Qed.

(** An identifier that matches no reservation. *)
Lemma UpdateReservationStatus_missing :
  IsValid (UpdateReservationStatusRequest.Status req) = true ->
  reservation_exists db id = false ->
  services.UpdateReservationStatus env db req
  = Err ("reservation not found with ID: " ++ uuid.String id).
Proof.
  intros Hvalid Hmiss. unfold services.UpdateReservationStatus. fold id.
  rewrite Hvalid. cbn [negb].
  destruct (IsValid_in _ Hvalid) as [status ->]. cbn [wrap bind].
  assert (Hnil : filter (fun r => uuid.eqb (Reservations.id r) id)
                        (reservations db) = []).
  { unfold reservation_exists in Hmiss.
    induction (reservations db) as [| r rs IH]; [ reflexivity | ].
    cbn in Hmiss |- *. apply orb_false_iff in Hmiss as [-> Hmiss]. auto. }
  rewrite Hnil. reflexivity.
Qed.

End Update.

(** ** Error messages and their HTTP status *)

Section Messages.

Lemma ContainsRune_app (a b : string) (r : ascii) :
  strings.ContainsRune (a ++ b) r
  = strings.ContainsRune a r || strings.ContainsRune b r.
Proof.
  induction a as [| c a IH]; cbn [append strings.ContainsRune]; [ reflexivity | ].
  now rewrite IH, orb_assoc.
Qed.

Lemma hexdigit_not_i (n : N) : Ascii.eqb "i" (uuid.hexdigit n) = false.
Proof.
  unfold uuid.hexdigit.
  assert (H : (N.to_nat (n mod 16) < 16)%nat).
  { pose proof (N.mod_upper_bound n 16). lia. }
  remember (N.to_nat (n mod 16)) as k eqn:Hk. clear Hk.
  do 16 (destruct k as [| k]; [ reflexivity | ]). lia.
Qed.

Lemma encodeHex_no_i (u : uuid.UUID) (len : nat) :
  forall i, strings.ContainsRune (uuid.encodeHex u i len) "i" = false.
Proof.
  induction len as [| len IH]; intros i; cbn [uuid.encodeHex strings.ContainsRune];
    [ reflexivity | ].
  now rewrite hexdigit_not_i, IH.
Qed.

Lemma uuid_String_no_i (u : uuid.UUID) :
  strings.ContainsRune (uuid.String u) "i" = false.
Proof.
  unfold uuid.String.
  rewrite !ContainsRune_app, !encodeHex_no_i. reflexivity.
Qed.

Lemma no_i_no_invalid_status (s : string) :
  strings.ContainsRune s "i" = false ->
  strings.Contains s "invalid status" = false.
Proof.
  induction s as [| c s IH]; [ reflexivity | ].
  cbn [strings.ContainsRune strings.Contains strings.HasPrefix].
  intros H. apply orb_false_iff in H as [-> H]. cbn [andb orb]. auto.
Qed.

(** The message built for a missing reservation is not the one the
    handler compares with, and does not mention an invalid status. *)
Lemma not_found_with_ID_unmatched (u : uuid.UUID) :
  String.eqb ("reservation not found with ID: " ++ uuid.String u)
             "reservation not found" = false
  /\ strings.Contains ("reservation not found with ID: " ++ uuid.String u)
                      "invalid status" = false.
Proof.
  split; [ reflexivity | ].
  cbn [append strings.Contains strings.HasPrefix Ascii.eqb Bool.eqb andb orb].
  apply no_i_no_invalid_status, uuid_String_no_i.
Qed.

End Messages.

Section UpdateHandler.

Variables (env : services.Env) (db : DB)
          (req : UpdateReservationStatusRequest.t).

(** C7 (what the code does). When the status update names, with a valid
    status, a reservation identifier that matches no reservation, the
    service fails with the message "reservation not found with ID: <id>";
    the handler compares the message with "reservation not found", finds
    them different, and answers 500 Internal Server Error, not 404. *)
Theorem update_missing_reservation_is_internal_error :
  IsValid (UpdateReservationStatusRequest.Status req) = true ->
  reservation_exists db (UpdateReservationStatusRequest.ReservationID req) = false ->
  handlers.UpdateReservationStatus env db req
  = (handlers.Respond http.StatusInternalServerError
       (handlers.H_error
          ("reservation not found with ID: "
           ++ uuid.String (UpdateReservationStatusRequest.ReservationID req))),
     db).
Proof.
  intros Hvalid Hmiss. unfold handlers.UpdateReservationStatus.
  rewrite UpdateReservationStatus_missing by assumption.
  destruct (not_found_with_ID_unmatched
              (UpdateReservationStatusRequest.ReservationID req)) as [-> ->].
  reflexivity.
Qed.

End UpdateHandler.

Lemma update_missing_reservation_is_internal_error_witness :
  handlers.UpdateReservationStatus example.env0 example.db0
    (UpdateReservationStatusRequest.Build 77%N "cancelled")
  = (handlers.Respond 500
       (handlers.H_error
          "reservation not found with ID: 00000000-0000-0000-0000-00000000004d"),
     example.db0).
Proof.
  apply (update_missing_reservation_is_internal_error example.env0 example.db0
           (UpdateReservationStatusRequest.Build 77%N "cancelled"));
    reflexivity.
Defined.

(** ** Conflicts *)

Section Conflicts.

Variables (RoomID : uuid.UUID) (S E : time.Time).

Lemma conflicts_overlapping (r : Reservations.row) :
  spec.conflicts RoomID S E r = true ->
  services.overlapping RoomID S E r = true.
Proof.
  unfold spec.conflicts, spec.live, services.overlapping.
  rewrite !andb_true_iff. intros [H Hi]. split; [ assumption | ].
  now apply intersects_timesOverlap.
Qed.

Lemma overlapping_conflicts (r : Reservations.row) :
  S < E ->
  Reservations.start_time r < Reservations.end_time r ->
  services.overlapping RoomID S E r = spec.conflicts RoomID S E r.
Proof.
  intros HSE Hr. unfold spec.conflicts, spec.live, services.overlapping.
  now rewrite timesOverlap_intersects_aux.
Qed.

End Conflicts.

Section Counting.

Variables (db : DB) (RoomID : uuid.UUID) (S E : time.Time).

Lemma countOverlapping_pos (r : Reservations.row) :
  In r (reservations db) ->
  services.overlapping RoomID S E r = true ->
  0 < services.countOverlapping db RoomID S E.
Proof.
  intros Hin Hov. unfold services.countOverlapping.
  assert (H : In r (filter (services.overlapping RoomID S E) (reservations db)))
    by now apply filter_In.
  destruct (filter _ _); [ contradiction | cbn [List.length]; lia ].
Qed.

Lemma countOverlapping_zero :
  (forall r, In r (reservations db) -> services.overlapping RoomID S E r = false) ->
  services.countOverlapping db RoomID S E = 0.
Proof.
  intros H. unfold services.countOverlapping.
  induction (reservations db) as [| r rs IH]; [ reflexivity | ].
  cbn [filter]. rewrite H by now left. apply IH. intros r' Hr'. apply H. now right.
Qed.

Lemma countOverlapping_zero_inv (r : Reservations.row) :
  services.countOverlapping db RoomID S E = 0 ->
  In r (reservations db) ->
  services.overlapping RoomID S E r = false.
Proof.
  intros H0 Hin.
  destruct (services.overlapping RoomID S E r) eqn:Hov; [ | reflexivity ].
  pose proof (countOverlapping_pos r Hin Hov). lia.
Qed.

End Counting.

Lemma CreateReservation_handler_Ok (env : services.Env) (db db' : DB)
    (req : CreateReservationRequest.t) (resp : CreateReservationResponse.t) :
  services.CreateReservation env db req = Ok (resp, db') ->
  handlers.CreateReservation env db req
  = (handlers.Respond http.StatusCreated (handlers.JSON resp), db').
Proof.
  intros H. unfold handlers.CreateReservation. rewrite H.
  apply CreateReservation_Ok_inv in H as (rm & Hv & _).
  apply validateTimeConstraints_ok_lt in Hv. unfold time.Before.
  destruct (Z.ltb_spec (CreateReservationRequest.EndTime req)
              (CreateReservationRequest.StartTime req)); [ lia | reflexivity ].
Qed.

(** An UPDATE of the status leaves the identifiers as they are. *)
Lemma existsb_id_set_status (hit : Reservations.row -> bool)
    (status : reservation_status) (now : time.Time) (id : uuid.UUID)
    (rs : list Reservations.row) :
  existsb (fun r => uuid.eqb (Reservations.id r) id)
          (map (fun r => if hit r then Reservations.set_status status now r else r) rs)
  = existsb (fun r => uuid.eqb (Reservations.id r) id) rs.
Proof.
  induction rs as [| r rs IH]; [ reflexivity | ].
  cbn [map existsb]. rewrite IH. now destruct (hit r).
Qed.

Section ConflictError.

Variables (env : services.Env) (db : DB) (req : CreateReservationRequest.t).

Let RoomID := CreateReservationRequest.RoomID req.
Let StartTime := CreateReservationRequest.StartTime req.
Let EndTime := CreateReservationRequest.EndTime req.


End ConflictError.



(** ** The invariant: no double booking *)

Section Pairwise.

Context {A : Type} (R : A -> A -> bool).

Lemma pairwise_snoc (l : list A) (x : A) :
  spec.pairwise R (l ++ [x])
  = spec.pairwise R l && forallb (fun y => R y x) l.
Proof.
  induction l as [| a l IH]; [ reflexivity | ].
  cbn [app spec.pairwise forallb]. rewrite IH, forallb_app. cbn [forallb].
  destruct (R a x), (forallb (R a) l), (spec.pairwise R l); reflexivity.
Qed.

Lemma pairwise_map (f : A -> A) (l : list A) :
  (forall x y, In x l -> In y l -> R x y = true -> R (f x) (f y) = true) ->
  spec.pairwise R l = true ->
  spec.pairwise R (map f l) = true.
Proof.
  induction l as [| a l IH]; [ reflexivity | ].
  cbn [map spec.pairwise]. intros Hf H.
  apply andb_true_iff in H as [Ha Hl]. apply andb_true_iff. split.
  - apply forallb_forall. intros y' Hy'.
    apply in_map_iff in Hy' as (y & <- & Hy).
    rewrite forallb_forall in Ha.
    apply Hf; [ now left | now right | now apply Ha ].
  - apply IH; [ | assumption ].
    intros x y Hx Hy. apply Hf; now right.
Qed.

End Pairwise.

Lemma compatible_mono (x y x' y' : Reservations.row) :
  Reservations.room_id x' = Reservations.room_id x ->
  Reservations.start_time x' = Reservations.start_time x ->
  Reservations.end_time x' = Reservations.end_time x ->
  Reservations.room_id y' = Reservations.room_id y ->
  Reservations.start_time y' = Reservations.start_time y ->
  Reservations.end_time y' = Reservations.end_time y ->
  (spec.live x' = true -> spec.live x = true) ->
  (spec.live y' = true -> spec.live y = true) ->
  spec.compatible x y = true -> spec.compatible x' y' = true.
Proof.
  unfold spec.compatible. intros -> -> -> -> -> -> Hx Hy.
  destruct (spec.live x'); [ rewrite Hx by reflexivity | now rewrite andb_false_r ].
  destruct (spec.live y'); [ rewrite Hy by reflexivity; auto | now rewrite !andb_false_r ].
Qed.

Section Invariant.

Variables (env : services.Env) (db : DB).

Lemma CreateReservation_no_double_booking (req : CreateReservationRequest.t) :
  spec.no_double_booking db ->
  spec.no_double_booking
    (services.committed db (services.CreateReservation env db req)).
Proof.
  intros Hinv.
  destruct (services.CreateReservation env db req) as [[resp db'] |] eqn:Hc;
    cbn [services.committed]; [ | assumption ].
  apply CreateReservation_Ok_inv in Hc as (rm & _ & _ & _ & Hcount & _ & _ & ->).
  unfold spec.no_double_booking, views.created. cbn [reservations].
  rewrite pairwise_snoc. apply andb_true_iff. split; [ exact Hinv | ].
  apply forallb_forall. intros r Hr.
  pose proof (countOverlapping_zero_inv _ _ _ _ r Hcount Hr) as Hov.
  destruct (spec.compatible r _) eqn:Hcompat; [ reflexivity | ].
  enough (spec.conflicts (CreateReservationRequest.RoomID req)
            (CreateReservationRequest.StartTime req)
            (CreateReservationRequest.EndTime req) r = true) as Hconf
    by (apply conflicts_overlapping in Hconf; congruence).
  unfold spec.compatible in Hcompat. apply negb_false_iff in Hcompat.
  cbn in Hcompat. unfold spec.conflicts, spec.intersects in *.
  rewrite !andb_true_iff in *. tauto.
Qed.

Lemma UpdateReservationStatus_no_double_booking
    (req : UpdateReservationStatusRequest.t) :
  spec.no_double_booking db ->
  UpdateReservationStatusRequest.Status req = "cancelled"
  \/ (forall r, In r (reservations db) ->
                Reservations.id r = UpdateReservationStatusRequest.ReservationID req ->
                Reservations.status r <> cancelled) ->
  spec.no_double_booking
    (services.committed db (services.UpdateReservationStatus env db req)).
Proof.
  intros Hinv Hcase.
  destruct (services.UpdateReservationStatus env db req) as [[ev db'] |] eqn:Hu;
    cbn [services.committed]; [ | assumption ].
  apply UpdateReservationStatus_Ok_inv in Hu as (status & Hst & ->).
  unfold spec.no_double_booking. cbn [with_reservations reservations].
  apply pairwise_map; [ | exact Hinv ].
  assert (Hlive : forall r, In r (reservations db) ->
            spec.live
              (if uuid.eqb (Reservations.id r)
                    (UpdateReservationStatusRequest.ReservationID req)
               then Reservations.set_status status (services.CURRENT_TIMESTAMP env) r
               else r) = true ->
            spec.live r = true).
  { intros r Hr.
    destruct (uuid.eqb _ _) eqn:Hid; [ | trivial ].
    destruct Hcase as [Hcancel | Hlive].
    - rewrite Hcancel in Hst. cbn in Hst. injection Hst as <-. discriminate.
    - intros _. apply uuid_eqb_eq in Hid. specialize (Hlive r Hr Hid).
      unfold spec.live. now destruct (Reservations.status r). }
  intros x y Hx Hy.
  apply compatible_mono; try (now apply Hlive);
    now destruct (uuid.eqb (Reservations.id _) _).
Qed.

(** C6 (amended). The invariant that no two reservations of one room,
    neither of them cancelled, have overlapping intervals is preserved by
    [CreateReservation], and by [UpdateReservationStatus] whenever the new
    status is cancelled or the reservation updated is not cancelled. *)
Theorem no_double_booking_preserved :
  spec.no_double_booking db ->
  (forall req,
     spec.no_double_booking
       (services.committed db (services.CreateReservation env db req)))
  /\ (forall req,
        UpdateReservationStatusRequest.Status req = "cancelled"
        \/ (forall r, In r (reservations db) ->
                      Reservations.id r
                      = UpdateReservationStatusRequest.ReservationID req ->
                      Reservations.status r <> cancelled) ->
        spec.no_double_booking
          (services.committed db (services.UpdateReservationStatus env db req))).
Proof.
  intros Hinv. split.
  - intros req. now apply CreateReservation_no_double_booking.
  - intros req. now apply UpdateReservationStatus_no_double_booking.
Qed.

End Invariant.

Lemma no_double_booking_preserved_witness :
  spec.no_double_booking
    (services.committed (example.db1 [])
       (services.CreateReservation example.env1 (example.db1 [])
          (CreateReservationRequest.Build 1%N 100%N
             (1003 * example.hour) (1004 * example.hour) 5 [])))
  /\ spec.no_double_booking
       (services.committed (example.db1 [])
          (services.UpdateReservationStatus example.env1 (example.db1 [])
             (UpdateReservationStatusRequest.Build 500%N "confirmed"))).
Proof.
  destruct (no_double_booking_preserved example.env1 (example.db1 []))
    as [Hcreate Hupdate].
  - vm_compute. reflexivity.
  - split; [ apply Hcreate | apply Hupdate ].
    right. intros r Hr _. vm_compute in Hr. destruct Hr as [<- | []].
    discriminate.
Defined.

(** C6 as stated fails: in [example.db2] the reservation 500 is cancelled
    and the reservation 501 holds the same room for the same hours; the
    invariant holds.  [UpdateReservationStatus] accepts the status
    confirmed for the reservation 500, and the two reservations then
    overlap, neither of them cancelled. *)
Lemma revived_reservation_double_books :
  let summary db :=
    map (fun r => (Reservations.id r, Reservations.room_id r,
                   Reservations.start_time r, Reservations.end_time r,
                   Reservations.status r))
        (reservations db) in
  let revive := UpdateReservationStatusRequest.Build 500%N "confirmed" in
  summary example.db2
  = [(500%N, 1%N, 1001 * example.hour, 1003 * example.hour, cancelled);
     (501%N, 1%N, 1001 * example.hour, 1003 * example.hour, pending)]
  /\ spec.no_double_booking example.db2
  /\ is_ok (services.UpdateReservationStatus example.env1 example.db2 revive)
     = true
  /\ summary (services.committed example.db2
                (services.UpdateReservationStatus example.env1 example.db2 revive))
     = [(500%N, 1%N, 1001 * example.hour, 1003 * example.hour, confirmed);
        (501%N, 1%N, 1001 * example.hour, 1003 * example.hour, pending)]
  /\ ~ spec.no_double_booking
         (services.committed example.db2
            (services.UpdateReservationStatus example.env1 example.db2 revive)).
Proof.
  cbv zeta.
  split; [ vm_compute; reflexivity | ].
  split; [ vm_compute; reflexivity | ].
  split; [ vm_compute; reflexivity | ].
  split; [ vm_compute; reflexivity | ].
  unfold spec.no_double_booking. vm_compute. discriminate.
Qed.

(** ** Snack lines that name no snack of the catalog *)

Section UnknownSnack.

Variables (db : DB) (l : SnackLine.t) (pre post : list SnackLine.t).

Hypothesis unknown :
  existsb (fun s => uuid.eqb (Snacks.id s) (SnackLine.SnackID l)) (snacks db)
  = false.

Lemma unknown_id (s : Snacks.row) :
  In s (snacks db) -> uuid.eqb (Snacks.id s) (SnackLine.SnackID l) = false.
Proof.
  intros Hs. apply not_true_is_false. intros Heq.
  assert (existsb (fun s => uuid.eqb (Snacks.id s) (SnackLine.SnackID l))
                  (snacks db) = true); [ | congruence ].
  apply existsb_exists. now exists s.
Qed.

Lemma findLine_unknown (s : Snacks.row) :
  In s (snacks db) ->
  services.findLine (pre ++ l :: post) (Snacks.id s)
  = services.findLine (pre ++ post) (Snacks.id s).
Proof.
  intros Hs. unfold services.findLine.
  induction pre as [| a pre' IH]; cbn [app find].
  - rewrite uuid_eqb_sym. now rewrite unknown_id.
  - now rewrite IH.
Qed.

Lemma querySnacks_unknown :
  services.querySnacks db (map SnackLine.SnackID (pre ++ l :: post))
  = services.querySnacks db (map SnackLine.SnackID (pre ++ post)).
Proof.
  unfold services.querySnacks. apply filter_ext_in. intros s Hs.
  rewrite !map_app, !existsb_app. cbn [map existsb].
  now rewrite unknown_id.
Qed.

Lemma flat_map_ext_in {A B : Type} (f g : A -> list B) (xs : list A) :
  (forall x, In x xs -> f x = g x) -> flat_map f xs = flat_map g xs.
Proof.
  induction xs as [| x xs IH]; intros H; [ reflexivity | ].
  cbn [flat_map]. rewrite H by now left. rewrite IH; [ reflexivity | ].
  intros y Hy. apply H. now right.
Qed.

Lemma orders_unknown :
  views.orders db (pre ++ l :: post) = views.orders db (pre ++ post).
Proof.
  unfold views.orders. rewrite querySnacks_unknown.
  apply flat_map_ext_in. intros s Hs. apply filter_In in Hs as [Hs _].
  now rewrite findLine_unknown.
Qed.

Lemma items_unknown :
  views.items db (pre ++ l :: post) = views.items db (pre ++ post).
Proof.
  unfold views.items. rewrite querySnacks_unknown.
  apply flat_map_ext_in. intros s Hs. apply filter_In in Hs as [Hs _].
  now rewrite findLine_unknown.
Qed.

Lemma items_inv (lines : list SnackLine.t) (it : SnackItem.t) :
  In it (views.items db lines) ->
  exists s, In s (snacks db) /\ SnackItem.ID it = Snacks.id s.
Proof.
  unfold views.items. intros H. apply in_flat_map in H as (s & Hs & Hit).
  apply filter_In in Hs as [Hs _].
  destruct (services.findLine lines (Snacks.id s)); [ | contradiction ].
  destruct Hit as [<- | []]. now exists s.
Qed.


End UnknownSnack.


(** ** Prices captured at booking time *)

Section Detail.

Lemma fold_scanDetail (rows : list (ReservationSnacks.row * Snacks.row)) :
  forall (acc : list SnackItem.t) (total : float),
    fst (fold_left services.scanDetail rows (acc, total))
    = (acc ++ map views.detailItem rows)%list.
Proof.
  induction rows as [| [rs s] rows IH]; intros acc total; cbn [fold_left map].
  - cbn [fst]. now rewrite app_nil_r.
  - unfold services.scanDetail at 2. rewrite IH, <- app_assoc. reflexivity.
Qed.

Lemma GetReservationByID_eq (db : DB) (id : uuid.UUID) :
  services.GetReservationByID db id
  = match services.joinReservation db id with
    | [] => Err "reservation not found"
    | (r, rm, u) :: _ =>
        Ok (ReservationDetailResponse.Build
              (Reservations.id r)
              (reservation_status_out (Reservations.status r))
              (Reservations.start_time r) (Reservations.end_time r)
              (Reservations.visitor_count r) (Reservations.price r)
              (Reservations.created_at r) (Reservations.updated_at r)
              (RoomDetail.Build (Rooms.id rm) (Rooms.name rm)
                 (Rooms.capacity rm) (Rooms.price_per_hour rm))
              (UserDetail.Build (Users.id u) (Users.username u))
              (map views.detailItem (services.joinReservationSnacks db id))
              (Reservations.price r))
    end.
Proof.
  unfold services.GetReservationByID.
  destruct (services.joinReservation db id) as [| [[r rm] u] rest]; [ reflexivity | ].
  pose proof (fold_scanDetail (services.joinReservationSnacks db id) [] 0%float) as H.
  destruct (fold_left services.scanDetail _ _) as [items total].
  cbn [fst app] in H. now subst items.
Qed.

Variable newPrice : Snacks.row -> float.

Lemma detailItem_reprice (rs : ReservationSnacks.row) (ss : list Snacks.row) :
  map views.detailItem
    (map (fun s => (rs, s))
         (filter (fun s => uuid.eqb (ReservationSnacks.snack_id rs) (Snacks.id s))
                 (map (fun s => Snacks.Build (Snacks.id s) (Snacks.name s)
                                  (Snacks.category s) (newPrice s)) ss)))
  = map views.detailItem
      (map (fun s => (rs, s))
           (filter (fun s => uuid.eqb (ReservationSnacks.snack_id rs) (Snacks.id s))
                   ss)).
Proof.
  induction ss as [| s ss IH]; [ reflexivity | ].
  cbn [map filter Snacks.id].
  destruct (uuid.eqb (ReservationSnacks.snack_id rs) (Snacks.id s));
    cbn [map]; now rewrite IH.
Qed.

Lemma joinReservationSnacks_reprice (db : DB) (id : uuid.UUID) :
  map views.detailItem (services.joinReservationSnacks (reprice newPrice db) id)
  = map views.detailItem (services.joinReservationSnacks db id).
Proof.
  unfold services.joinReservationSnacks, reprice.
  cbn [with_snacks snacks reservation_snacks].
  induction (filter _ (reservation_snacks db)) as [| rs rss IH]; [ reflexivity | ].
  cbn [flat_map]. rewrite !map_app, IH, detailItem_reprice. reflexivity.
Qed.

Lemma GetReservationByID_reprice (db : DB) (id : uuid.UUID) :
  services.GetReservationByID (reprice newPrice db) id
  = services.GetReservationByID db id.
Proof.
  rewrite !GetReservationByID_eq, joinReservationSnacks_reprice. reflexivity.
Qed.

End Detail.

Lemma joinReservationSnacks_inv (db : DB) (id : uuid.UUID)
    (rs : ReservationSnacks.row) (s : Snacks.row) :
  In (rs, s) (services.joinReservationSnacks db id) ->
  In rs (reservation_snacks db) /\ ReservationSnacks.reservation_id rs = id.
Proof.
  unfold services.joinReservationSnacks. intros H.
  apply in_flat_map in H as (rs' & Hrs & H).
  apply in_map_iff in H as (s' & [= <- <-] & _).
  apply filter_In in Hrs as [Hin Hid]. now apply uuid_eqb_eq in Hid.
Qed.



(** ** The total cost *)

Lemma flat_map_nil_in {A C : Type} (f : A -> list C) (l : list A) :
  (forall x, In x l -> f x = []) -> flat_map f l = [].
Proof.
  induction l as [| a l IH]; intros H; [ reflexivity | ].
  cbn [flat_map]. rewrite H by now left. apply IH. intros x Hx. apply H. now right.
Qed.

Section FlatMap.

Context {A B C : Type}.

Lemma flat_map_app_perm (g h : B -> list C) (l : list B) :
  Permutation (flat_map (fun b => g b ++ h b)%list l)
              (flat_map g l ++ flat_map h l)%list.
Proof.
  induction l as [| b l IH]; [ constructor | ].
  cbn [flat_map]. rewrite IH, <- !app_assoc.
  apply Permutation_app_head.
  rewrite !app_assoc. apply Permutation_app_tail. apply Permutation_app_comm.
Qed.

Lemma flat_map_swap (f : A -> B -> list C) (la : list A) (lb : list B) :
  Permutation (flat_map (fun a => flat_map (f a) lb) la)
              (flat_map (fun b => flat_map (fun a => f a b) la) lb).
Proof.
  induction la as [| a la IH]; cbn [flat_map].
  - rewrite flat_map_nil_in; [ constructor | reflexivity ].
  - rewrite flat_map_app_perm. now apply Permutation_app_head.
Qed.

End FlatMap.

Section UniqueKey.

Context {A B : Type} (key : A -> uuid.UUID) (h : A -> list B).

(** Under a key that occurs once, the first match is the only match. *)
Lemma find_unique (k : uuid.UUID) (l : list A) :
  unique (map key l) = true ->
  match find (fun x => uuid.eqb (key x) k) l with
  | Some x => h x
  | None => []
  end
  = flat_map (fun x => if uuid.eqb (key x) k then h x else []) l.
Proof.
  induction l as [| a l IH]; [ reflexivity | ].
  cbn [map unique find flat_map]. intros Hu.
  apply andb_true_iff in Hu as [Ha Hu]. apply negb_true_iff in Ha.
  destruct (uuid.eqb (key a) k) eqn:Hak; [ | now apply IH ].
  rewrite flat_map_nil_in; [ now rewrite app_nil_r | ].
  intros x Hx. destruct (uuid.eqb (key x) k) eqn:Hxk; [ | reflexivity ].
  apply uuid_eqb_eq in Hak, Hxk.
  assert (existsb (uuid.eqb (key a)) (map key l) = true); [ | congruence ].
  apply existsb_exists. exists (key x). split.
  - now apply in_map.
  - apply uuid_eqb_eq. congruence.
Qed.

End UniqueKey.

Section Subtotals.

Variables (db : DB) (lines : list SnackLine.t).

Hypothesis snacks_unique : snacks_pkey db.
Hypothesis lines_unique : unique (map SnackLine.SnackID lines) = true.

Let price (s : Snacks.row) (l : SnackLine.t) : float :=
  (Snacks.price s * builtin.float64 (SnackLine.Quantity l))%float.

Let matching (s : Snacks.row) (l : SnackLine.t) : list float :=
  if uuid.eqb (SnackLine.SnackID l) (Snacks.id s) then [price s l] else [].

Lemma findLine_not_requested (s : Snacks.row) :
  existsb (uuid.eqb (Snacks.id s)) (map SnackLine.SnackID lines) = false ->
  services.findLine lines (Snacks.id s) = None.
Proof.
  unfold services.findLine. clear lines_unique.
  induction lines as [| l ls IH]; [ reflexivity | ].
  cbn [map existsb find]. intros H. apply orb_false_iff in H as [Hl H].
  rewrite uuid_eqb_sym, Hl. now apply IH.
Qed.

Lemma subtotals_by_catalog :
  map views.subtotal (views.orders db lines)
  = flat_map (fun s => flat_map (matching s) lines) (snacks db).
Proof.
  unfold views.orders, services.querySnacks.
  induction (snacks db) as [| s ss IH]; [ reflexivity | ].
  cbn [filter flat_map].
  assert (Hs : map views.subtotal
                 match services.findLine lines (Snacks.id s) with
                 | Some l => [views.orderOf s l]
                 | None => []
                 end
               = flat_map (matching s) lines).
  { unfold matching. rewrite <- (find_unique SnackLine.SnackID
                                   (fun l => [price s l])) by assumption.
    unfold services.findLine. now destruct (find _ lines). }
  destruct (existsb _ _) eqn:Hreq.
  - cbn [flat_map]. now rewrite map_app, Hs, IH.
  - rewrite IH, <- Hs, findLine_not_requested by assumption. reflexivity.
Qed.

Lemma lineSubtotals_by_line :
  spec.lineSubtotals db lines
  = flat_map (fun l => flat_map (fun s => matching s l) (snacks db)) lines.
Proof.
  unfold spec.lineSubtotals. apply flat_map_ext. intros l.
  unfold spec.unitPrice, matching.
  rewrite (flat_map_ext _ (fun s => if uuid.eqb (Snacks.id s) (SnackLine.SnackID l)
                                    then [price s l] else []))
    by (intros s; now rewrite uuid_eqb_sym).
  rewrite <- (find_unique Snacks.id (fun s => [price s l])) by assumption.
  now destruct (find _ (snacks db)).
Qed.

(** The subtotals that the service adds up are those of the requested
    lines whose snack is in the catalog, in the order of the catalog. *)
Lemma subtotals_perm :
  Permutation (map views.subtotal (views.orders db lines))
              (spec.lineSubtotals db lines).
Proof.
  rewrite subtotals_by_catalog, lineSubtotals_by_line. apply flat_map_swap.
Qed.

End Subtotals.

Section TotalCost.

Variables (env : services.Env) (db : DB) (req : CreateReservationRequest.t).

Let RoomID := CreateReservationRequest.RoomID req.
Let StartTime := CreateReservationRequest.StartTime req.
Let EndTime := CreateReservationRequest.EndTime req.
Let lines := CreateReservationRequest.Snacks req.


End TotalCost.



(** * Further properties of the services and handlers *)

(** ** The status update *)

Section UpdateOutcomes.

Variables (env : services.Env) (db : DB)
          (req : UpdateReservationStatusRequest.t).

Let id := UpdateReservationStatusRequest.ReservationID req.

(** The database that the UPDATE statement of the call leaves. *)
Let updated (status : reservation_status) : DB :=
  with_reservations db
    (map (fun r =>
            if uuid.eqb (Reservations.id r) id
            then Reservations.set_status status (services.CURRENT_TIMESTAMP env) r
            else r)
         (reservations db)).

Lemma UpdateReservationStatus_eq (status : reservation_status) :
  reservation_status_in (UpdateReservationStatusRequest.Status req) = Ok status ->
  IsValid (UpdateReservationStatusRequest.Status req) = true ->
  services.UpdateReservationStatus env db req
  = if reservation_exists db id
    then match services.joinReservation (updated status) id with
         | row :: _ => Ok (services.scanEvent row, updated status)
         | [] => Err "error fetching updated reservation: sql: no rows in result set"
         end
    else Err ("reservation not found with ID: " ++ uuid.String id).
Proof.
  intros Hin Hvalid.
  destruct (reservation_exists db id) eqn:Hex.
  - unfold services.UpdateReservationStatus. fold id.
    rewrite Hvalid, Hin. cbn [negb wrap bind].
    assert (Hpos : filter (fun r => uuid.eqb (Reservations.id r) id)
                          (reservations db) <> []).
    { unfold reservation_exists in Hex. apply existsb_exists in Hex as (r & Hr & Hid).
      intros Hnil.
      assert (Hf : In r (filter (fun r => uuid.eqb (Reservations.id r) id)
                                (reservations db))) by now apply filter_In.
      now rewrite Hnil in Hf. }
    destruct (filter _ (reservations db)) as [| r0 rest] eqn:Hf; [ contradiction | ].
    cbn [List.length]. rewrite Nat2Z.inj_succ.
    destruct (Z.eqb_spec (Z.succ (Z.of_nat (List.length rest))) 0); [ lia | ].
    fold (updated status).
    now destruct (services.joinReservation (updated status) id).
  - now apply UpdateReservationStatus_missing.
Qed.

(** X1. The handler of the status update answers 400 Bad Request exactly
    when the requested status is not one of pending, confirmed, cancelled
    and completed, answers 200 exactly when the service succeeds, and
    never answers 404; a failed call leaves the database as it was. *)
Theorem update_status_codes :
  let answer := handlers.UpdateReservationStatus env db req in
  (handlers.code (fst answer) = http.StatusBadRequest
   <-> IsValid (UpdateReservationStatusRequest.Status req) = false)
  /\ (handlers.code (fst answer) = http.StatusOK
      <-> is_ok (services.UpdateReservationStatus env db req) = true)
  /\ handlers.code (fst answer) <> http.StatusNotFound
  /\ (handlers.code (fst answer) <> http.StatusOK -> snd answer = db).
Proof.
  cbv zeta. unfold handlers.UpdateReservationStatus.
  destruct (IsValid (UpdateReservationStatusRequest.Status req)) eqn:Hvalid.
  - destruct (IsValid_in _ Hvalid) as [status Hin].
    rewrite (UpdateReservationStatus_eq status Hin Hvalid).
    destruct (reservation_exists db id).
    + destruct (services.joinReservation (updated status) id) as [| row rest];
        cbn; repeat split; intros; try discriminate; try reflexivity; congruence.
    + destruct (not_found_with_ID_unmatched id) as [-> ->].
      cbn; repeat split; intros; try discriminate; try reflexivity; congruence.
  - unfold services.UpdateReservationStatus. rewrite Hvalid.
    cbn; repeat split; intros; try discriminate; try reflexivity; congruence.
Qed.

End UpdateOutcomes.

Lemma reservation_status_in_out (s : string) (status : reservation_status) :
  reservation_status_in s = Ok status -> reservation_status_out status = s.
Proof.
  unfold reservation_status_in.
  destruct (String.eqb_spec s "pending"); [ intros [= <-]; now subst | ].
  destruct (String.eqb_spec s "confirmed"); [ intros [= <-]; now subst | ].
  destruct (String.eqb_spec s "cancelled"); [ intros [= <-]; now subst | ].
  destruct (String.eqb_spec s "completed"); [ intros [= <-]; now subst | ].
  discriminate.
Qed.

Lemma joinReservation_inv (db : DB) (id : uuid.UUID)
    (r : Reservations.row) (rm : Rooms.row) (u : Users.row) :
  In (r, rm, u) (services.joinReservation db id) ->
  In r (reservations db) /\ Reservations.id r = id
  /\ In rm (rooms db) /\ Rooms.id rm = Reservations.room_id r
  /\ In u (users db) /\ Users.id u = Reservations.user_id r.
Proof.
  unfold services.joinReservation. intros H.
  apply in_flat_map in H as (r0 & Hr0 & H).
  apply in_flat_map in H as (rm0 & Hrm0 & H).
  apply in_map_iff in H as (u0 & [= <- <- <-] & Hu0).
  apply filter_In in Hr0 as [Hr Hid]. apply uuid_eqb_eq in Hid.
  apply filter_In in Hrm0 as [Hrm Hrmid]. apply uuid_eqb_eq in Hrmid.
  apply filter_In in Hu0 as [Hu Huid]. apply uuid_eqb_eq in Huid.
  repeat split; auto.
Qed.

Section UpdateEffect.

Variables (env : services.Env) (db : DB)
          (req : UpdateReservationStatusRequest.t).

Let id := UpdateReservationStatusRequest.ReservationID req.

(** The columns of a reservation that a status update leaves alone. *)
Let fixed (r : Reservations.row) :=
  (Reservations.id r, Reservations.room_id r, Reservations.user_id r,
   Reservations.start_time r, Reservations.end_time r,
   Reservations.visitor_count r, Reservations.price r,
   Reservations.created_at r).

Lemma UpdateReservationStatus_Ok_event (ev : ReservationEvent.t) (db' : DB) :
  services.UpdateReservationStatus env db req = Ok (ev, db') ->
  exists status r rm u rest,
    reservation_status_in (UpdateReservationStatusRequest.Status req) = Ok status
    /\ services.joinReservation db' id = (r, rm, u) :: rest
    /\ ev = services.scanEvent (r, rm, u)
    /\ Reservations.status r = status.
Proof.
  intros H. pose proof H as H0.
  apply UpdateReservationStatus_Ok_inv in H0 as (status & Hin & Hdb).
  assert (Hvalid : IsValid (UpdateReservationStatusRequest.Status req) = true).
  { unfold services.UpdateReservationStatus in H.
    destruct (IsValid _); [ reflexivity | discriminate ]. }
  rewrite (UpdateReservationStatus_eq _ _ _ status Hin Hvalid) in H.
  cbv beta zeta in H. fold id in Hdb, H. subst db'.
  destruct (reservation_exists db id); [ | discriminate ].
  destruct (services.joinReservation _ id) as [| [[r rm] u] rest] eqn:Hj;
    [ discriminate | ].
  injection H as <-. exists status, r, rm, u, rest.
  repeat split; try assumption.
  assert (Hrow : In (r, rm, u) ((r, rm, u) :: rest)) by now left.
  rewrite <- Hj in Hrow.
  apply joinReservation_inv in Hrow as (Hr & Hid & _).
  cbn [with_reservations reservations] in Hr.
  apply in_map_iff in Hr as (r0 & Hr0 & _).
  destruct (uuid.eqb (Reservations.id r0) id) eqn:Hhit; subst r; [ reflexivity | ].
  apply uuid_eqb_eq in Hid. congruence.
Qed.

(** X2. A successful status update changes, in the whole database, only
    the status and the update time of the reservations that carry the
    given identifier: the other columns of every reservation, the other
    reservations and the other tables stay as they were.  The event
    returned carries the identifier and the status of the request. *)
Theorem update_status_effect (ev : ReservationEvent.t) (db' : DB) :
  services.UpdateReservationStatus env db req = Ok (ev, db') ->
  rooms db' = rooms db /\ users db' = users db /\ snacks db' = snacks db
  /\ reservation_snacks db' = reservation_snacks db
  /\ map fixed (reservations db') = map fixed (reservations db)
  /\ (forall r', In r' (reservations db') ->
        if uuid.eqb (Reservations.id r') id
        then reservation_status_out (Reservations.status r')
             = UpdateReservationStatusRequest.Status req
             /\ Reservations.updated_at r' = services.CURRENT_TIMESTAMP env
        else In r' (reservations db))
  /\ ReservationEvent.ID ev = id
  /\ ReservationEvent.Status ev = UpdateReservationStatusRequest.Status req.
Proof.
  intros H. pose proof H as H0.
  apply UpdateReservationStatus_Ok_inv in H0 as (status & Hin & ->).
  apply UpdateReservationStatus_Ok_event in H
    as (status' & r & rm & u & rest & Hin' & Hj & -> & Hst).
  assert (Heq : status' = status) by congruence.
  rewrite Heq in Hst. clear Heq Hin'.
  pose proof (reservation_status_in_out _ _ Hin) as Hout.
  cbn [with_reservations rooms users snacks reservation_snacks reservations].
  repeat split.
  - rewrite map_map. apply map_ext. intros r0. fold id.
    now destruct (uuid.eqb (Reservations.id r0) id).
  - intros r' Hr'. apply in_map_iff in Hr' as (r0 & <- & Hr0). fold id.
    destruct (uuid.eqb (Reservations.id r0) id) eqn:Hhit.
    + cbn. rewrite Hhit. now split.
    + now rewrite Hhit.
  - assert (Hrow : In (r, rm, u) ((r, rm, u) :: rest)) by now left.
    rewrite <- Hj in Hrow. now apply joinReservation_inv in Hrow as (_ & Hid & _).
  - cbn. now rewrite Hst.
Qed.

(** X3. After a successful status update, [GetReservationByID] finds the
    reservation and reports what the update returned: the same
    identifier, room, user, times, visitor count and price, and the
    status that was requested; the total it reports is the stored
    price. *)
Theorem read_after_update (ev : ReservationEvent.t) (db' : DB) :
  services.UpdateReservationStatus env db req = Ok (ev, db') ->
  exists detail,
    services.GetReservationByID db' id = Ok detail
    /\ ReservationDetailResponse.ID detail = id
    /\ ReservationDetailResponse.Status detail
       = UpdateReservationStatusRequest.Status req
    /\ ReservationDetailResponse.StartTime detail = ReservationEvent.StartTime ev
    /\ ReservationDetailResponse.EndTime detail = ReservationEvent.EndTime ev
    /\ ReservationDetailResponse.VisitorCount detail
       = ReservationEvent.VisitorCount ev
    /\ RoomDetail.ID (ReservationDetailResponse.Room detail)
       = ReservationEvent.RoomID ev
    /\ UserDetail.ID (ReservationDetailResponse.User detail)
       = ReservationEvent.UserID ev
    /\ ReservationDetailResponse.Price detail = ReservationEvent.Price ev
    /\ ReservationDetailResponse.TotalCost detail = ReservationEvent.Price ev.
Proof.
  intros H.
  apply UpdateReservationStatus_Ok_event in H
    as (status & r & rm & u & rest & Hin & Hj & -> & Hst).
  pose proof (reservation_status_in_out _ _ Hin) as Hout.
  assert (Hrow : In (r, rm, u) ((r, rm, u) :: rest)) by now left.
  rewrite <- Hj in Hrow.
  apply joinReservation_inv in Hrow as (_ & Hid & _ & Hrm & _ & Hu).
  rewrite GetReservationByID_eq, Hj. eexists. split; [ reflexivity | ].
  cbn. rewrite Hst. repeat split; auto.
Qed.

End UpdateEffect.

Lemma update_status_effect_witness :
  exists ev db',
    services.UpdateReservationStatus example.env1 (example.db1 [])
      (UpdateReservationStatusRequest.Build 500%N "confirmed") = Ok (ev, db')
    /\ ReservationEvent.Status ev = "confirmed".
Proof.
  destruct (services.UpdateReservationStatus example.env1 (example.db1 [])
              (UpdateReservationStatusRequest.Build 500%N "confirmed"))
    as [[ev db'] |] eqn:Hupd; [ | vm_compute in Hupd; discriminate ].
  exists ev, db'. split; [ reflexivity | ].
  apply (update_status_effect _ _ _ _ _ Hupd).
Defined.

Lemma read_after_update_witness :
  exists detail,
    services.GetReservationByID
      (services.committed (example.db1 [])
         (services.UpdateReservationStatus example.env1 (example.db1 [])
            (UpdateReservationStatusRequest.Build 500%N "completed")))
      500%N = Ok detail
    /\ ReservationDetailResponse.Status detail = "completed".
Proof.
  destruct (services.UpdateReservationStatus example.env1 (example.db1 [])
              (UpdateReservationStatusRequest.Build 500%N "completed"))
    as [[ev db'] |] eqn:Hupd; [ | vm_compute in Hupd; discriminate ].
  destruct (read_after_update _ _ _ _ _ Hupd) as (detail & Hget & _ & Hst & _).
  exists detail. split; [ exact Hget | exact Hst ].
Defined.

(** ** Reading a reservation back *)

Lemma filter_nil_existsb {A : Type} (p : A -> bool) (l : list A) :
  existsb p l = false -> filter p l = [].
Proof.
  induction l as [| a l IH]; [ reflexivity | ].
  cbn [existsb filter]. intros H. apply orb_false_iff in H as [-> H]. auto.
Qed.

Lemma filter_cons_existsb {A : Type} (p : A -> bool) (l : list A) :
  existsb p l = true -> exists x rest, filter p l = x :: rest.
Proof.
  intros H. apply existsb_exists in H as (x & Hx & Hp).
  assert (Hin : In x (filter p l)) by now apply filter_In.
  destruct (filter p l) as [| y rest]; [ contradiction | now exists y, rest ].
Qed.

Lemma unique_not_in {A : Type} (key : A -> uuid.UUID) (a : A) (l : list A) :
  existsb (uuid.eqb (key a)) (map key l) = false ->
  forall y, In y l -> uuid.eqb (key a) (key y) = false.
Proof.
  intros H y Hy. apply not_true_is_false. intros Heq.
  assert (existsb (uuid.eqb (key a)) (map key l) = true); [ | congruence ].
  apply existsb_exists. exists (key y). split; [ now apply in_map | assumption ].
Qed.

Lemma unique_filter_singleton {A : Type} (key : A -> uuid.UUID)
    (l : list A) (x : A) :
  unique (map key l) = true -> In x l ->
  filter (fun y => uuid.eqb (key x) (key y)) l = [x].
Proof.
  induction l as [| a l IH]; [ contradiction | ].
  cbn [map unique]. intros Hu Hx. apply andb_true_iff in Hu as [Ha Hu].
  apply negb_true_iff in Ha. pose proof (unique_not_in key a l Ha) as Hfresh.
  cbn [filter]. destruct Hx as [-> | Hx].
  - rewrite uuid_eqb_refl. f_equal. apply filter_nil_existsb.
    apply not_true_is_false. intros H. apply existsb_exists in H as (y & Hy & Hk).
    rewrite Hfresh in Hk by assumption. discriminate.
  - rewrite uuid_eqb_sym, Hfresh by assumption. now apply IH.
Qed.

Section ReadAfterCreate.

Variables (env : services.Env) (db : DB) (req : CreateReservationRequest.t).

Let lines := CreateReservationRequest.Snacks req.
Let newid := services.uuid_generate_v4 env.

Lemma CreateReservation_Ok_user (resp : CreateReservationResponse.t) (db' : DB) :
  services.CreateReservation env db req = Ok (resp, db') ->
  user_exists db (CreateReservationRequest.UserID req) = true.
Proof.
  rewrite CreateReservation_eq.
  destruct (services.validateTimeConstraints _ _ _); cbn [bind]; [ | discriminate ].
  destruct (services.queryAvailableRoom _ _) as [rm |]; [ | discriminate ].
  destruct (_ <? _); [ discriminate | ].
  destruct (_ <? _); [ discriminate | ].
  destruct (insert_reservation db _) as [db1 |] eqn:Hins;
    cbn [wrap bind]; [ | discriminate ].
  intros _. now apply insert_reservation_inv in Hins as (_ & _ & _ & _ & Hu).
Qed.

(** The lines read back for the rows written for a list of catalog
    rows. *)
Lemma detail_of_orders (rows : list Snacks.row) :
  snacks_pkey db ->
  (forall s, In s rows -> In s (snacks db)) ->
  map views.detailItem
    (flat_map
       (fun rs =>
          map (fun s => (rs, s))
              (filter (fun s => uuid.eqb (ReservationSnacks.snack_id rs) (Snacks.id s))
                      (snacks db)))
       (map (views.orderRow newid)
            (flat_map
               (fun s =>
                  match services.findLine lines (Snacks.id s) with
                  | Some l => [views.orderOf s l]
                  | None => []
                  end) rows)))
  = flat_map
      (fun s =>
         match services.findLine lines (Snacks.id s) with
         | Some l => [views.itemOf s l]
         | None => []
         end) rows.
Proof.
  intros Hpk. induction rows as [| s rows IH]; intros Hrows; [ reflexivity | ].
  cbn [flat_map]. rewrite map_app, flat_map_app, map_app, IH
    by (intros s' Hs'; apply Hrows; now right).
  f_equal. destruct (services.findLine lines (Snacks.id s)) as [l |]; [ | reflexivity ].
  cbn [map flat_map views.orderRow views.orderOf services.snackOrder.ID
       ReservationSnacks.snack_id].
  rewrite (unique_filter_singleton Snacks.id (snacks db) s Hpk)
    by (apply Hrows; now left).
  reflexivity.
Qed.


End ReadAfterCreate.

Lemma integrity_example_db0 : integrity.holds example.db0.
Proof. repeat split. Qed.


(** ** The quote and the booking *)

Section QuoteAndBooking.

Variables (env : services.Env) (db : DB).
Variables (RoomID UserID : uuid.UUID) (S E : time.Time) (VisitorCount : Z)
          (lines : list SnackLine.t).

Let req := CreateReservationRequest.Build RoomID UserID S E VisitorCount lines.
Let creq := ReservationCalculationRequest.Build RoomID lines S E.

Lemma items_as_orders (newid : uuid.UUID) (rows : list Snacks.row) :
  map (fun it => (SnackItem.ID it, SnackItem.Quantity it, SnackItem.Price it))
      (flat_map
         (fun s =>
            match services.findLine lines (Snacks.id s) with
            | Some l => [views.itemOf s l]
            | None => []
            end) rows)
  = map (fun rs => (ReservationSnacks.snack_id rs, ReservationSnacks.quantity rs,
                    ReservationSnacks.price rs))
        (map (views.orderRow newid)
           (flat_map
              (fun s =>
                 match services.findLine lines (Snacks.id s) with
                 | Some l => [views.orderOf s l]
                 | None => []
                 end) rows)).
Proof.
  induction rows as [| s rows IH]; [ reflexivity | ].
  cbn [flat_map]. rewrite !map_app, IH. f_equal.
  now destruct (services.findLine lines (Snacks.id s)).
Qed.

(** X5. [CalculateReservationCost] succeeds exactly when the time
    constraints hold and the room is available: it looks neither at the
    capacity nor at the stored reservations.  When it fails,
    [CreateReservation] fails with the same error for the same room,
    times and lines.  When [CreateReservation] succeeds, the calculation
    succeeds too, and the snack rows stored are, line by line, the snack,
    the quantity and the price that the calculation lists. *)
Theorem quote_and_booking :
  (is_ok (services.CalculateReservationCost env db creq) = true
   <-> services.validateTimeConstraints (services.Now env) S E = Ok tt
       /\ exists rm, services.queryAvailableRoom db RoomID = Some rm)
  /\ (forall msg,
        services.CalculateReservationCost env db creq = Err msg ->
        services.CreateReservation env db req = Err msg)
  /\ (forall resp db',
        services.CreateReservation env db req = Ok (resp, db') ->
        exists cresp rows,
          services.CalculateReservationCost env db creq = Ok cresp
          /\ reservation_snacks db' = (reservation_snacks db ++ rows)%list
          /\ map (fun it => (SnackItem.ID it, SnackItem.Quantity it,
                             SnackItem.Price it))
                 (ReservationCalculationResponse.Snacks cresp)
             = map (fun rs => (ReservationSnacks.snack_id rs,
                               ReservationSnacks.quantity rs,
                               ReservationSnacks.price rs))
                   rows).
Proof.
  split; [ | split ].
  - rewrite CalculateReservationCost_eq. unfold creq.
    cbn [ReservationCalculationRequest.StartTime
         ReservationCalculationRequest.EndTime
         ReservationCalculationRequest.RoomID].
    destruct (services.validateTimeConstraints _ S E) as [[] |]; cbn [bind].
    + destruct (services.queryAvailableRoom db RoomID) as [rm |]; cbn.
      * split; [ intros _; split; [ reflexivity | now exists rm ] | reflexivity ].
      * split; [ discriminate | intros [_ [rm Hrm]]; discriminate ].
    + split; [ discriminate | intros [H _]; discriminate ].
  - intros msg. rewrite CalculateReservationCost_eq, CreateReservation_eq.
    unfold creq, req.
    cbn [ReservationCalculationRequest.StartTime
         ReservationCalculationRequest.EndTime
         ReservationCalculationRequest.RoomID
         CreateReservationRequest.StartTime CreateReservationRequest.EndTime
         CreateReservationRequest.RoomID].
    destruct (services.validateTimeConstraints _ S E); cbn [bind];
      [ | now intros [= <-] ].
    destruct (services.queryAvailableRoom db RoomID);
      [ discriminate | now intros [= <-] ].
  - intros resp db' H.
    apply CreateReservation_Ok_inv in H as (rm & Hv & Hq & _ & _ & _ & _ & ->).
    unfold req in Hv, Hq.
    cbn [CreateReservationRequest.StartTime CreateReservationRequest.EndTime
         CreateReservationRequest.RoomID] in Hv, Hq.
    eexists. eexists. split; [ | split ].
    + rewrite CalculateReservationCost_eq. unfold creq.
      cbn [ReservationCalculationRequest.StartTime
           ReservationCalculationRequest.EndTime
           ReservationCalculationRequest.RoomID
           ReservationCalculationRequest.Snacks].
      rewrite Hv, Hq. cbn [bind]. reflexivity.
    + reflexivity.
    + cbn [ReservationCalculationResponse.Snacks]. apply items_as_orders.
Qed.

End QuoteAndBooking.

Lemma quote_and_booking_witness :
  exists cresp,
    services.CalculateReservationCost example.env0 example.db0
      (ReservationCalculationRequest.Build 1%N [example.line 201%N 2]
         (1001 * example.hour) (1003 * example.hour))
    = Ok cresp.
Proof.
  destruct (services.CreateReservation example.env0 example.db0
              (CreateReservationRequest.Build 1%N 100%N (1001 * example.hour)
                 (1003 * example.hour) 5 [example.line 201%N 2]))
    as [[resp db'] |] eqn:Hc; [ | vm_compute in Hc; discriminate ].
  destruct (proj2 (proj2 (quote_and_booking example.env0 example.db0 1%N 100%N
                            (1001 * example.hour) (1003 * example.hour) 5
                            [example.line 201%N 2])) resp db' Hc)
    as (cresp & rows & Hq & _).
  exists cresp. exact Hq.
Defined.

(** ** One line for each snack *)

Section OneLinePerSnack.

Lemma unique_filter {A : Type} (key : A -> uuid.UUID) (p : A -> bool)
    (l : list A) :
  unique (map key l) = true -> unique (map key (filter p l)) = true.
Proof.
  induction l as [| a l IH]; [ reflexivity | ].
  cbn [map unique filter]. intros H. apply andb_true_iff in H as [Ha Hl].
  apply negb_true_iff in Ha. destruct (p a); [ | now apply IH ].
  cbn [map unique]. rewrite IH by assumption. rewrite andb_true_r.
  apply negb_true_iff, not_true_is_false. intros Hex.
  apply existsb_exists in Hex as (k & Hk & Heq).
  apply in_map_iff in Hk as (y & <- & Hy). apply filter_In in Hy as [Hy _].
  rewrite (unique_not_in key a l Ha y Hy) in Heq. discriminate.
Qed.

(** A list built from rows with different keys, at most one element for
    each row and with the key of the row, has different keys. *)
Lemma unique_flat_map {A B : Type} (key : A -> uuid.UUID) (key' : B -> uuid.UUID)
    (g : A -> option B) (l : list A) :
  (forall a b, g a = Some b -> key' b = key a) ->
  unique (map key l) = true ->
  unique (map key'
            (flat_map (fun a => match g a with Some b => [b] | None => [] end) l))
  = true.
Proof.
  intros Hg. induction l as [| a l IH]; [ reflexivity | ].
  cbn [map unique flat_map]. intros H. apply andb_true_iff in H as [Ha Hl].
  apply negb_true_iff in Ha. specialize (IH Hl).
  destruct (g a) as [b |] eqn:Hga; [ | exact IH ].
  cbn [app map unique]. rewrite IH, andb_true_r.
  apply negb_true_iff, not_true_is_false. intros Hex.
  apply existsb_exists in Hex as (k & Hk & Heq).
  apply in_map_iff in Hk as (b' & <- & Hb').
  apply in_flat_map in Hb' as (a' & Ha' & Hb').
  destruct (g a') as [b'' |] eqn:Hga'; [ | contradiction ].
  destruct Hb' as [<- | []].
  rewrite (Hg _ _ Hga), (Hg _ _ Hga') in Heq.
  rewrite (unique_not_in key a l Ha a' Ha') in Heq. discriminate.
Qed.

Variables (env : services.Env) (db : DB).

Hypothesis snacks_unique : snacks_pkey db.

Lemma items_unique (lines : list SnackLine.t) :
  unique (map SnackItem.ID (views.items db lines)) = true.
Proof.
  unfold views.items.
  rewrite (flat_map_ext _
             (fun s => match option_map (views.itemOf s)
                                (services.findLine lines (Snacks.id s)) with
                       | Some b => [b]
                       | None => []
                       end))
    by (intros s; now destruct (services.findLine lines (Snacks.id s))).
  apply (unique_flat_map Snacks.id SnackItem.ID).
  - intros s it H. destruct (services.findLine lines (Snacks.id s)); [ | discriminate ].
    injection H as <-. reflexivity.
  - now apply unique_filter.
Qed.

Lemma orders_unique (lines : list SnackLine.t) :
  unique (map services.snackOrder.ID (views.orders db lines)) = true.
Proof.
  unfold views.orders.
  rewrite (flat_map_ext _
             (fun s => match option_map (views.orderOf s)
                                (services.findLine lines (Snacks.id s)) with
                       | Some b => [b]
                       | None => []
                       end))
    by (intros s; now destruct (services.findLine lines (Snacks.id s))).
  apply (unique_flat_map Snacks.id services.snackOrder.ID).
  - intros s o H. destruct (services.findLine lines (Snacks.id s)); [ | discriminate ].
    injection H as <-. reflexivity.
  - now apply unique_filter.
Qed.

(** X6. With [snacks.id] a key, no snack appears twice among the lines
    of a calculation response, nor among the snack rows that
    [CreateReservation] writes for a reservation, however often the
    request names it. *)
Theorem one_line_per_snack :
  (forall creq cresp,
     services.CalculateReservationCost env db creq = Ok cresp ->
     unique (map SnackItem.ID (ReservationCalculationResponse.Snacks cresp)) = true)
  /\ (forall req resp db',
        services.CreateReservation env db req = Ok (resp, db') ->
        exists rows,
          reservation_snacks db' = (reservation_snacks db ++ rows)%list
          /\ unique (map ReservationSnacks.snack_id rows) = true).
Proof.
  split.
  - intros creq cresp. rewrite CalculateReservationCost_eq.
    destruct (services.validateTimeConstraints _ _ _); cbn [bind]; [ | discriminate ].
    destruct (services.queryAvailableRoom _ _); [ | discriminate ].
    cbv zeta. intros [= <-]. cbn [ReservationCalculationResponse.Snacks].
    apply items_unique.
  - intros req resp db' H.
    apply CreateReservation_Ok_inv in H as (rm & _ & _ & _ & _ & _ & _ & ->).
    eexists. split; [ reflexivity | ].
    rewrite map_map. cbn [views.orderRow ReservationSnacks.snack_id].
    apply orders_unique.
Qed.

End OneLinePerSnack.

Lemma one_line_per_snack_witness :
  exists cresp,
    services.CalculateReservationCost example.env0 example.db0
      (example.quote [example.line 201%N 2; example.line 201%N 3]) = Ok cresp
    /\ unique (map SnackItem.ID (ReservationCalculationResponse.Snacks cresp)) = true.
Proof.
  destruct (services.CalculateReservationCost example.env0 example.db0
              (example.quote [example.line 201%N 2; example.line 201%N 3]))
    as [cresp |] eqn:Hq; [ | vm_compute in Hq; discriminate ].
  exists cresp. split; [ reflexivity | ].
  refine (proj1 (one_line_per_snack example.env0 example.db0 _) _ _ Hq).
  reflexivity.
Defined.

(** ** The status codes of the creation and of the calculation *)

(** Closes the rows of a table of status codes once the answer of the
    handler is known: every row is an equivalence between a status and a
    condition on the request. *)
Ltac status_table :=
  cbn;
  repeat split; intros;
  repeat match goal with
         | H : _ /\ _ |- _ => destruct H
         | H : exists _, _ |- _ => destruct H
         | H : Some _ = Some _ |- _ => injection H as <-
         | H : Ok _ = Ok _ |- _ => clear H
         end;
  try discriminate; try reflexivity; try assumption; try congruence; try lia;
  try (exfalso; auto; fail).

Section StatusCodes.

Lemma timeConstraintError_unmatched (msg : string) :
  services.timeConstraintError msg = true ->
  String.eqb msg "room not found or inactive" = false
  /\ String.eqb msg "visitor count exceeds room capacity" = false
  /\ String.eqb msg "room is already booked for the selected time period" = false.
Proof.
  unfold services.timeConstraintError. rewrite !orb_true_iff.
  intros [[[H | H] | H] | H]; apply String.eqb_eq in H; subst msg;
    repeat split; reflexivity.
Qed.

Lemma error_creating_unmatched (msg : string) :
  strings.HasPrefix msg "error creating " = true ->
  String.eqb msg "room not found or inactive" = false
  /\ String.eqb msg "visitor count exceeds room capacity" = false
  /\ String.eqb msg "room is already booked for the selected time period" = false.
Proof.
  destruct msg as [| c msg]; [ discriminate | ]. cbn [strings.HasPrefix].
  intros H. apply andb_true_iff in H as [Hc _].
  apply Ascii.eqb_eq in Hc. subst c. repeat split; reflexivity.
Qed.

Variables (env : services.Env) (db : DB) (req : CreateReservationRequest.t).

Let RoomID := CreateReservationRequest.RoomID req.
Let StartTime := CreateReservationRequest.StartTime req.
Let EndTime := CreateReservationRequest.EndTime req.

Lemma CreateReservation_handler_Err (msg : string) :
  time.Before EndTime StartTime = false ->
  services.CreateReservation env db req = Err msg ->
  String.eqb msg "room not found or inactive" = false
  /\ String.eqb msg "visitor count exceeds room capacity" = false
  /\ String.eqb msg "room is already booked for the selected time period" = false ->
  handlers.CreateReservation env db req
  = (handlers.Respond http.StatusInternalServerError (handlers.H_error msg), db).
Proof.
  intros Hb Hs (H1 & H2 & H3). unfold handlers.CreateReservation.
  fold StartTime EndTime. now rewrite Hb, Hs, H1, H2, H3.
Qed.

(** The errors that the inserts of a call can produce. *)
Lemma CreateReservation_insert_errors (rm : Rooms.row) (msg : string) :
  services.validateTimeConstraints (services.Now env) StartTime EndTime = Ok tt ->
  services.queryAvailableRoom db RoomID = Some rm ->
  (Rooms.capacity rm <? CreateReservationRequest.VisitorCount req) = false ->
  (0 <? services.countOverlapping db RoomID StartTime EndTime) = false ->
  services.CreateReservation env db req = Err msg ->
  strings.HasPrefix msg "error creating " = true.
Proof.
  intros Hv Hq Hcap Hcount. rewrite CreateReservation_eq.
  fold RoomID StartTime EndTime. rewrite Hv, Hq, Hcap, Hcount. cbn [bind].
  destruct (insert_reservation db _) as [db1 |]; cbn [wrap bind];
    [ | intros [= <-]; reflexivity ].
  destruct (services.insertSnackOrders db1 _ _) as [db2 |] eqn:Hsn;
    cbn [bind]; [ discriminate | ].
  intros [= <-]. now apply insertSnackOrders_Err in Hsn.
Qed.

(** X7. The status of the answer of the creation handler: 400 exactly
    when the end time is before the start time; 404 exactly when the time
    constraints hold and no available room has the requested identifier;
    409 exactly when times and room are in order, the visitor count is
    within the capacity and an overlapping reservation is counted; 201
    exactly when the service succeeds; and 500 in every other case, among
    them a violated time constraint and a visitor count over the
    capacity.  Unless the answer is 201 the database is as before. *)
Theorem create_status_codes :
  let answer := handlers.CreateReservation env db req in
  let code := handlers.code (fst answer) in
  (code = http.StatusBadRequest <-> EndTime < StartTime)
  /\ (code = http.StatusNotFound
      <-> services.validateTimeConstraints (services.Now env) StartTime EndTime
          = Ok tt
          /\ services.queryAvailableRoom db RoomID = None)
  /\ (code = http.StatusConflict
      <-> services.validateTimeConstraints (services.Now env) StartTime EndTime
          = Ok tt
          /\ exists rm,
               services.queryAvailableRoom db RoomID = Some rm
               /\ CreateReservationRequest.VisitorCount req <= Rooms.capacity rm
               /\ 0 < services.countOverlapping db RoomID StartTime EndTime)
  /\ (code = http.StatusCreated
      <-> is_ok (services.CreateReservation env db req) = true)
  /\ (code <> http.StatusBadRequest -> code <> http.StatusNotFound ->
      code <> http.StatusConflict -> code <> http.StatusCreated ->
      code = http.StatusInternalServerError)
  /\ (code <> http.StatusCreated -> snd answer = db).
Proof.
  cbv zeta.
  destruct (Z.ltb_spec EndTime StartTime) as [Hlt | Hge].
  - (* the end is before the start *)
    assert (Hfail : services.validateTimeConstraints (services.Now env)
                      StartTime EndTime = Ok tt -> False).
    { intros Hv. apply validateTimeConstraints_ok_lt in Hv. lia. }
    assert (Hs : is_ok (services.CreateReservation env db req) = false).
    { rewrite CreateReservation_eq. fold StartTime EndTime.
      destruct (validateTimeConstraints_cases (services.Now env) StartTime EndTime)
        as [[Hv _] | (msg & Hv & _)];
        [ now apply Hfail in Hv | now rewrite Hv ]. }
    unfold handlers.CreateReservation, time.Before. fold StartTime EndTime.
    apply Z.ltb_lt in Hlt. rewrite Hlt. apply Z.ltb_lt in Hlt.
    rewrite Hs. status_table.
  - (* the end is not before the start *)
    assert (Hb : time.Before EndTime StartTime = false)
      by (unfold time.Before; apply Z.ltb_ge; lia).
    destruct (validateTimeConstraints_cases (services.Now env) StartTime EndTime)
      as [[Hv _] | (msg & Hv & Hm & _)].
    + destruct (services.queryAvailableRoom db RoomID) as [rm |] eqn:Hq.
      * destruct (Z.ltb_spec (Rooms.capacity rm)
                    (CreateReservationRequest.VisitorCount req)) as [Hcap | Hcap].
        -- (* over the capacity *)
           assert (Hs : services.CreateReservation env db req
                        = Err ("visitor count exceeds room capacity of "
                               ++ fmt.d (Rooms.capacity rm))).
           { rewrite CreateReservation_eq. fold RoomID StartTime EndTime.
             rewrite Hv, Hq. cbn [bind]. apply Z.ltb_lt in Hcap. now rewrite Hcap. }
           rewrite (CreateReservation_handler_Err _ Hb Hs), Hs
             by (repeat split; reflexivity).
           status_table.
        -- destruct (Z.ltb_spec 0 (services.countOverlapping db RoomID StartTime EndTime))
             as [Hcount | Hcount].
           ++ (* an overlapping reservation *)
              assert (Hs : services.CreateReservation env db req
                           = Err "room is already booked for the selected time period").
              { rewrite CreateReservation_eq. fold RoomID StartTime EndTime.
                rewrite Hv, Hq. cbn [bind].
                destruct (Z.ltb_spec (Rooms.capacity rm)
                            (CreateReservationRequest.VisitorCount req)); [ lia | ].
                apply Z.ltb_lt in Hcount. now rewrite Hcount. }
              unfold handlers.CreateReservation. fold StartTime EndTime.
              rewrite Hb, Hs. status_table.
              exists rm. repeat split; [ lia | assumption ].
           ++ (* the inserts *)
              destruct (services.CreateReservation env db req)
                as [[resp db'] | msg] eqn:Hs.
              ** rewrite (CreateReservation_handler_Ok _ _ _ _ _ Hs).
                 status_table.
              ** assert (Hcap' : (Rooms.capacity rm
                                  <? CreateReservationRequest.VisitorCount req) = false)
                   by (apply Z.ltb_ge; lia).
                 assert (Hcount' : (0 <? services.countOverlapping db RoomID
                                           StartTime EndTime) = false)
                   by (apply Z.ltb_ge; lia).
                 pose proof (CreateReservation_insert_errors rm msg Hv Hq Hcap'
                               Hcount' Hs) as Hpre.
                 rewrite (CreateReservation_handler_Err _ Hb Hs)
                   by (now apply error_creating_unmatched).
                 status_table.
      * (* no available room *)
        assert (Hs : services.CreateReservation env db req
                     = Err "room not found or inactive").
        { rewrite CreateReservation_eq. fold RoomID StartTime EndTime.
          now rewrite Hv, Hq. }
        unfold handlers.CreateReservation. fold StartTime EndTime.
        rewrite Hb, Hs. status_table.
    + (* a violated time constraint *)
      assert (Hs : services.CreateReservation env db req = Err msg).
      { rewrite CreateReservation_eq. fold StartTime EndTime. now rewrite Hv. }
      rewrite (CreateReservation_handler_Err _ Hb Hs), Hs
        by (now apply timeConstraintError_unmatched).
      rewrite Hv. status_table.
Qed.

End StatusCodes.

Section CalculateStatusCodes.

Variables (env : services.Env) (db : DB)
          (req : ReservationCalculationRequest.t).

Let RoomID := ReservationCalculationRequest.RoomID req.
Let StartTime := ReservationCalculationRequest.StartTime req.
Let EndTime := ReservationCalculationRequest.EndTime req.

(** X8. The status of the answer of the calculation handler: 400 exactly
    when the end time is before the start time; 404 exactly when the time
    constraints hold and no available room has the requested identifier;
    200 exactly when the time constraints hold and the room is available;
    and 500 in the remaining case, a violated time constraint with an end
    time that is not before the start time. *)
Theorem calculate_status_codes :
  let code := handlers.code (handlers.CalculateReservationCost env db req) in
  (code = http.StatusBadRequest <-> EndTime < StartTime)
  /\ (code = http.StatusNotFound
      <-> services.validateTimeConstraints (services.Now env) StartTime EndTime
          = Ok tt
          /\ services.queryAvailableRoom db RoomID = None)
  /\ (code = http.StatusOK
      <-> services.validateTimeConstraints (services.Now env) StartTime EndTime
          = Ok tt
          /\ exists rm, services.queryAvailableRoom db RoomID = Some rm)
  /\ (code = http.StatusInternalServerError
      <-> StartTime <= EndTime
          /\ spec.violates_time_constraints (services.Now env) StartTime EndTime).
Proof.
  cbv zeta. unfold handlers.CalculateReservationCost, time.Before.
  fold StartTime EndTime.
  destruct (Z.ltb_spec EndTime StartTime) as [Hlt | Hge].
  - assert (Hfail : services.validateTimeConstraints (services.Now env)
                      StartTime EndTime = Ok tt -> False).
    { intros Hv. apply validateTimeConstraints_ok_lt in Hv. lia. }
    status_table.
  - rewrite CalculateReservationCost_eq. fold RoomID StartTime EndTime.
    destruct (validateTimeConstraints_cases (services.Now env) StartTime EndTime)
      as [[Hv Hok] | (msg & Hv & Hm & Hviol)]; rewrite Hv; cbn [bind].
    + destruct (services.queryAvailableRoom db RoomID) as [rm |] eqn:Hq.
      * status_table. now exists rm.
      * status_table.
    + apply timeConstraintError_unmatched in Hm as (-> & _). status_table.
Qed.

End CalculateStatusCodes.

(** ** The constraints of the database are kept *)

Lemma unique_snoc {A : Type} (key : A -> uuid.UUID) (l : list A) (x : A) :
  unique (map key l) = true ->
  existsb (fun y => uuid.eqb (key y) (key x)) l = false ->
  unique (map key (l ++ [x])) = true.
Proof.
  induction l as [| a l IH]; [ reflexivity | ].
  cbn [map app unique existsb]. intros Hu Hx.
  apply andb_true_iff in Hu as [Ha Hu]. apply orb_false_iff in Hx as [Hax Hx].
  rewrite IH by assumption. rewrite andb_true_r.
  rewrite map_app, existsb_app. cbn [map existsb].
  apply negb_true_iff in Ha. now rewrite Ha, Hax.
Qed.

Lemma insertSnackOrders_quantities (rid : uuid.UUID)
    (orders : list services.snackOrder.t) :
  forall db db' : DB,
    services.insertSnackOrders db rid orders = Ok db' ->
    Forall (fun o => 0 < services.snackOrder.Quantity o) orders.
Proof.
  induction orders as [| o orders IH]; intros db db'; [ constructor | ].
  cbn [services.insertSnackOrders]. unfold insert_reservation_snack.
  cbn [ReservationSnacks.quantity].
  destruct (Z.ltb_spec 0 (services.snackOrder.Quantity o)) as [Hq | Hq];
    cbn [negb]; [ | discriminate ].
  destruct (negb _); [ discriminate | ].
  destruct (negb _); [ discriminate | ].
  cbn [wrap bind]. intros H. constructor; [ assumption | ]. now apply IH in H.
Qed.

Section CreateKeepsIntegrity.

Variables (env : services.Env) (db : DB) (req : CreateReservationRequest.t).

Lemma CreateReservation_Ok_quantities (resp : CreateReservationResponse.t)
    (db' : DB) :
  services.CreateReservation env db req = Ok (resp, db') ->
  Forall (fun o => 0 < services.snackOrder.Quantity o)
         (views.orders db (CreateReservationRequest.Snacks req)).
Proof.
  rewrite CreateReservation_eq.
  destruct (services.validateTimeConstraints _ _ _); cbn [bind]; [ | discriminate ].
  destruct (services.queryAvailableRoom _ _) as [rm |]; [ | discriminate ].
  destruct (_ <? _); [ discriminate | ].
  destruct (_ <? _); [ discriminate | ].
  destruct (insert_reservation db _) as [db1 |]; cbn [wrap bind]; [ | discriminate ].
  destruct (services.insertSnackOrders db1 _ _) as [db2 |] eqn:Hsn;
    cbn [bind]; [ | discriminate ].
  intros _. now apply insertSnackOrders_quantities in Hsn.
Qed.

Lemma CreateReservation_integrity :
  integrity.holds db ->
  integrity.holds (services.committed db (services.CreateReservation env db req)).
Proof.
  intros Hint.
  destruct (services.CreateReservation env db req) as [[resp db'] |] eqn:Hc;
    cbn [services.committed]; [ | assumption ].
  destruct Hint as (Hrpk & Hspk & Hids & Hvtr & Hpos & Hfk).
  pose proof (CreateReservation_Ok_user _ _ _ _ _ Hc) as Huser.
  pose proof (CreateReservation_Ok_quantities _ _ Hc) as Hqty.
  apply CreateReservation_Ok_inv in Hc as (rm & Hv & Hq & _ & _ & Hfresh & _ & ->).
  apply validateTimeConstraints_ok_lt in Hv.
  apply queryAvailableRoom_Some in Hq as (Hrm & Hrmid & _).
  unfold integrity.foreign_keys in Hfk. apply andb_true_iff in Hfk as [Hfk1 Hfk2].
  rewrite forallb_forall in Hfk1, Hfk2.
  unfold integrity.holds, views.created. repeat split.
  - exact Hrpk.
  - exact Hspk.
  - cbn [reservations]. now apply unique_snoc.
  - unfold valid_time_range. cbn [reservations]. rewrite forallb_app.
    unfold valid_time_range in Hvtr. rewrite Hvtr. cbn.
    apply Z.ltb_lt in Hv. now rewrite Hv.
  - unfold integrity.positive_quantities in *. cbn [reservation_snacks].
    rewrite forallb_app, Hpos. cbn [andb]. apply forallb_forall.
    intros rs Hrs. apply in_map_iff in Hrs as (o & <- & Ho).
    rewrite Forall_forall in Hqty. apply Z.ltb_lt. now apply Hqty.
  - unfold integrity.foreign_keys, user_exists, reservation_exists.
    cbn [reservations rooms users snacks reservation_snacks].
    apply andb_true_iff. split.
    + rewrite forallb_app. apply andb_true_iff. split.
      * apply forallb_forall. intros r Hr. now apply Hfk1.
      * cbn. rewrite andb_true_r. apply andb_true_iff. split.
        -- apply existsb_exists. exists rm. split; [ assumption | ].
           now apply uuid_eqb_eq.
        -- exact Huser.
    + rewrite forallb_app. apply andb_true_iff. split.
      * apply forallb_forall. intros rs Hrs. apply Hfk2 in Hrs.
        apply andb_true_iff in Hrs as [Hres Hsn]. apply andb_true_iff.
        split; [ | exact Hsn ].
        rewrite existsb_app. unfold reservation_exists in Hres. now rewrite Hres.
      * apply forallb_forall. intros rs Hrs.
        apply in_map_iff in Hrs as (o & <- & Ho).
        apply orders_inv in Ho as (s & l & Hs & _ & _ & _ & ->).
        cbn. apply andb_true_iff. split.
        -- rewrite existsb_app. cbn. rewrite uuid_eqb_refl.
           now rewrite orb_true_r.
        -- apply existsb_exists. exists s. split; [ assumption | apply uuid_eqb_refl ].
Qed.

End CreateKeepsIntegrity.

Section UpdateKeepsIntegrity.

Variables (env : services.Env) (db : DB)
          (req : UpdateReservationStatusRequest.t).

Lemma UpdateReservationStatus_integrity :
  integrity.holds db ->
  integrity.holds
    (services.committed db (services.UpdateReservationStatus env db req)).
Proof.
  intros Hint.
  destruct (services.UpdateReservationStatus env db req) as [[ev db'] |] eqn:Hu;
    cbn [services.committed]; [ | assumption ].
  destruct Hint as (Hrpk & Hspk & Hids & Hvtr & Hpos & Hfk).
  apply UpdateReservationStatus_Ok_inv in Hu as (status & _ & ->).
  set (f := fun r : Reservations.row =>
              if uuid.eqb (Reservations.id r)
                   (UpdateReservationStatusRequest.ReservationID req)
              then Reservations.set_status status (services.CURRENT_TIMESTAMP env) r
              else r).
  assert (Hid : forall r, Reservations.id (f r) = Reservations.id r)
    by (intros r; unfold f; now destruct (uuid.eqb _ _)).
  assert (Hroom : forall r, Reservations.room_id (f r) = Reservations.room_id r)
    by (intros r; unfold f; now destruct (uuid.eqb _ _)).
  assert (Huser : forall r, Reservations.user_id (f r) = Reservations.user_id r)
    by (intros r; unfold f; now destruct (uuid.eqb _ _)).
  assert (Htime : forall r,
            (Reservations.start_time (f r) <? Reservations.end_time (f r))
            = (Reservations.start_time r <? Reservations.end_time r))
    by (intros r; unfold f; now destruct (uuid.eqb _ _)).
  unfold integrity.foreign_keys in Hfk. apply andb_true_iff in Hfk as [Hfk1 Hfk2].
  rewrite forallb_forall in Hfk1, Hfk2.
  unfold integrity.holds. repeat split.
  - exact Hrpk.
  - exact Hspk.
  - cbn [with_reservations reservations]. rewrite map_map.
    now rewrite (map_ext _ _ Hid).
  - unfold valid_time_range in *. cbn [with_reservations reservations].
    apply forallb_forall. intros r' Hr'. apply in_map_iff in Hr' as (r & <- & Hr).
    rewrite Htime. rewrite forallb_forall in Hvtr. now apply Hvtr.
  - exact Hpos.
  - unfold integrity.foreign_keys, user_exists, reservation_exists.
    cbn [with_reservations reservations rooms users snacks reservation_snacks].
    apply andb_true_iff. split.
    + apply forallb_forall. intros r' Hr'. apply in_map_iff in Hr' as (r & <- & Hr).
      rewrite Hroom, Huser. now apply Hfk1.
    + apply forallb_forall. intros rs Hrs. apply Hfk2 in Hrs.
      unfold reservation_exists in Hrs. unfold f.
      now rewrite existsb_id_set_status.
Qed.

End UpdateKeepsIntegrity.



(** ** What is stored for a new reservation *)

(** X10. The reservation that a successful [CreateReservation] stores
    lasts at least 30 minutes and at most 24 hours, starts no earlier
    than the time of the call, and is for a room that is stored as
    available and whose capacity is not below the visitor count; no
    reservation of that room stored before it, unless cancelled, has an
    interval that meets its interval. *)
Theorem stored_reservation_is_admissible
    (env : services.Env) (db db' : DB) (req : CreateReservationRequest.t)
    (resp : CreateReservationResponse.t) :
  services.CreateReservation env db req = Ok (resp, db') ->
  exists r rm,
    reservations db' = (reservations db ++ [r])%list
    /\ 30 * time.Minute <= Reservations.end_time r - Reservations.start_time r
    /\ Reservations.end_time r - Reservations.start_time r <= 24 * time.Hour
    /\ services.Now env <= Reservations.start_time r
    /\ In rm (rooms db)
    /\ Rooms.id rm = Reservations.room_id r
    /\ Rooms.status rm = available
    /\ Reservations.visitor_count r <= Rooms.capacity rm
    /\ (forall r0, In r0 (reservations db) ->
          spec.conflicts (Reservations.room_id r) (Reservations.start_time r)
            (Reservations.end_time r) r0 = false).
Proof.
  intros H.
  apply CreateReservation_Ok_inv in H as (rm & Hv & Hq & Hcap & Hcount & _ & _ & ->).
  apply validateTimeConstraints_ok in Hv.
  unfold spec.violates_time_constraints in Hv.
  apply queryAvailableRoom_Some in Hq as (Hrm & Hid & Hst).
  eexists. exists rm. split; [ reflexivity | ]. cbn.
  change (30 * time.Minute) with 1800000000000 in *.
  change (24 * time.Hour) with 86400000000000 in *.
  repeat (split; [ solve [ lia | assumption ] | ]).
  intros r0 Hr0. apply not_true_is_false. intros Hconf.
  apply conflicts_overlapping in Hconf.
  pose proof (countOverlapping_pos _ _ _ _ r0 Hr0 Hconf). lia.
Qed.

Lemma stored_reservation_is_admissible_witness :
  exists r,
    reservations (example.db1 []) = (reservations example.db0 ++ [r])%list
    /\ 30 * time.Minute <= Reservations.end_time r - Reservations.start_time r.
Proof.
  unfold example.db1.
  destruct (services.CreateReservation example.env0 example.db0 (example.book []))
    as [[resp db'] |] eqn:Hc; [ | vm_compute in Hc; discriminate ].
  destruct (stored_reservation_is_admissible _ _ _ _ _ Hc)
    as (r & rm & Hr & Hmin & _).
  exists r. split; [ exact Hr | exact Hmin ].
Defined.

(** ** Deleting a room *)

Section DeleteRoom.

Variables (db : DB) (id : uuid.UUID).

Let roomExists := existsb (fun rm => uuid.eqb (Rooms.id rm) id) (rooms db).
Let referenced :=
  existsb (fun r => uuid.eqb (Reservations.room_id r) id) (reservations db).

Lemma hasActiveReservations_referenced :
  RoomService.hasActiveReservations db id = true -> referenced = true.
Proof.
  unfold RoomService.hasActiveReservations, referenced. intros H.
  apply existsb_exists in H as (r & Hr & H). apply andb_true_iff in H as [H _].
  apply existsb_exists. now exists r.
Qed.

Lemma filter_length_zero {A : Type} (p : A -> bool) (l : list A) :
  Z.of_nat (List.length (filter p l)) = 0 <-> existsb p l = false.
Proof.
  split.
  - intros H. apply not_true_is_false. intros Hex.
    apply filter_cons_existsb in Hex as (x & rest & Hf). rewrite Hf in H.
    cbn [List.length] in H. lia.
  - intros H. now rewrite filter_nil_existsb.
Qed.

Lemma DeleteRoom_eq :
  RoomService.DeleteRoom db id
  = if RoomService.hasActiveReservations db id then
      Err "cannot delete room with active reservations"
    else if roomExists && referenced then
      Err "error deleting room: pq: update or delete on table rooms violates foreign key constraint reservations_room_id_fkey on table reservations"
    else if roomExists then
      Ok (database.Build
            (filter (fun rm => negb (uuid.eqb (Rooms.id rm) id)) (rooms db))
            (users db) (reservations db) (snacks db) (reservation_snacks db))
    else Err "room not found".
Proof.
  unfold RoomService.DeleteRoom, RoomService.delete_room.
  fold roomExists referenced.
  destruct (RoomService.hasActiveReservations db id); [ reflexivity | ].
  destruct roomExists eqn:Hex; cbn [andb].
  - destruct referenced; [ reflexivity | ]. cbn [wrap bind].
    destruct (Z.eqb_spec (Z.of_nat (List.length
                (filter (fun rm => uuid.eqb (Rooms.id rm) id) (rooms db)))) 0)
      as [Hz | Hz]; [ | reflexivity ].
    apply filter_length_zero in Hz. unfold roomExists in Hex. congruence.
  - cbn [wrap bind].
    destruct (Z.eqb_spec (Z.of_nat (List.length
                (filter (fun rm => uuid.eqb (Rooms.id rm) id) (rooms db)))) 0)
      as [Hz | Hz]; [ reflexivity | ].
    exfalso. apply Hz. now apply filter_length_zero.
Qed.

(** X11. The status of the answer of the room deletion: 409 exactly when
    a pending or confirmed reservation refers to the room; 404 exactly
    when no such reservation exists and no room has the identifier; 500
    exactly when the room exists and is referred to only by cancelled or
    completed reservations, which the foreign key of [reservations] still
    protects; 200 exactly when the room exists and no reservation refers
    to it.  Only an answer of 200 changes the database. *)
Theorem delete_room_status_codes :
  let answer := RoomHandler.DeleteRoom db id in
  let code := handlers.code (fst answer) in
  (code = http.StatusConflict <-> RoomService.hasActiveReservations db id = true)
  /\ (code = http.StatusNotFound
      <-> RoomService.hasActiveReservations db id = false /\ roomExists = false)
  /\ (code = http.StatusInternalServerError
      <-> RoomService.hasActiveReservations db id = false
          /\ roomExists = true /\ referenced = true)
  /\ (code = http.StatusOK <-> roomExists = true /\ referenced = false)
  /\ (code <> http.StatusOK -> snd answer = db).
Proof.
  cbv zeta. unfold RoomHandler.DeleteRoom. rewrite DeleteRoom_eq.
  destruct (RoomService.hasActiveReservations db id) eqn:Hact.
  - apply hasActiveReservations_referenced in Hact. rewrite Hact. status_table.
  - destruct roomExists, referenced; status_table.
Qed.

(** X12. A successful [DeleteRoom] removes the rows of [rooms] that carry
    the identifier and nothing else: the other rooms and the other tables
    are as before, and no reservation refers to the removed room, so the
    constraints of the database still hold. *)
Theorem delete_room_effect (db' : DB) :
  integrity.holds db ->
  RoomService.DeleteRoom db id = Ok db' ->
  rooms db' = filter (fun rm => negb (uuid.eqb (Rooms.id rm) id)) (rooms db)
  /\ users db' = users db /\ reservations db' = reservations db
  /\ snacks db' = snacks db /\ reservation_snacks db' = reservation_snacks db
  /\ (forall r, In r (reservations db) -> Reservations.room_id r <> id)
  /\ integrity.holds db'.
Proof.
  intros (Hrpk & Hspk & Hids & Hvtr & Hpos & Hfk). rewrite DeleteRoom_eq.
  destruct (RoomService.hasActiveReservations db id); [ discriminate | ].
  destruct roomExists; cbn [andb]; [ | discriminate ].
  destruct referenced eqn:Href; [ discriminate | ].
  intros [= <-]. cbn [rooms users reservations snacks reservation_snacks].
  assert (Hfree : forall r, In r (reservations db) -> Reservations.room_id r <> id).
  { intros r Hr Heq. unfold referenced in Href.
    assert (existsb (fun r => uuid.eqb (Reservations.room_id r) id)
                    (reservations db) = true); [ | congruence ].
    apply existsb_exists. exists r. split; [ assumption | now apply uuid_eqb_eq ]. }
  repeat split; try assumption.
  - unfold rooms_pkey. cbn [rooms]. now apply unique_filter.
  - unfold integrity.foreign_keys in *. apply andb_true_iff in Hfk as [Hfk1 Hfk2].
    unfold user_exists, reservation_exists in *.
    cbn [rooms users reservations snacks reservation_snacks].
    rewrite Hfk2, andb_true_r. rewrite forallb_forall in Hfk1.
    apply forallb_forall. intros r Hr. pose proof (Hfk1 r Hr) as H.
    apply andb_true_iff in H as [Hroom Hu]. rewrite Hu, andb_true_r.
    apply existsb_exists in Hroom as (rm & Hrm & Hid).
    apply existsb_exists. exists rm. split; [ | assumption ].
    apply filter_In. split; [ assumption | ].
    apply negb_true_iff, not_true_is_false. intros Heq.
    apply uuid_eqb_eq in Hid, Heq. apply (Hfree r Hr). congruence.
Qed.

(** X13. Once a room is deleted, [CreateReservation] and
    [CalculateReservationCost] no longer find it: a request for it that
    satisfies the time constraints is answered "room not found or
    inactive". *)
Theorem deleted_room_cannot_be_booked (db' : DB) (env : services.Env)
    (req : CreateReservationRequest.t) (creq : ReservationCalculationRequest.t) :
  RoomService.DeleteRoom db id = Ok db' ->
  (CreateReservationRequest.RoomID req = id ->
   services.validateTimeConstraints (services.Now env)
     (CreateReservationRequest.StartTime req)
     (CreateReservationRequest.EndTime req) = Ok tt ->
   services.CreateReservation env db' req = Err "room not found or inactive")
  /\ (ReservationCalculationRequest.RoomID creq = id ->
      services.validateTimeConstraints (services.Now env)
        (ReservationCalculationRequest.StartTime creq)
        (ReservationCalculationRequest.EndTime creq) = Ok tt ->
      services.CalculateReservationCost env db' creq
      = Err "room not found or inactive").
Proof.
  rewrite DeleteRoom_eq.
  destruct (RoomService.hasActiveReservations db id); [ discriminate | ].
  destruct (roomExists && referenced); [ discriminate | ].
  destruct roomExists; [ | discriminate ]. intros [= <-].
  assert (Hnone : services.queryAvailableRoom
                    (database.Build
                       (filter (fun rm => negb (uuid.eqb (Rooms.id rm) id)) (rooms db))
                       (users db) (reservations db) (snacks db)
                       (reservation_snacks db)) id = None).
  { unfold services.queryAvailableRoom. cbn [rooms].
    destruct (find _ _) as [rm |] eqn:Hf; [ | reflexivity ].
    apply find_some in Hf as [Hin Hp]. apply filter_In in Hin as [_ Hne].
    apply andb_true_iff in Hp as [Heq _]. rewrite Heq in Hne. discriminate. }
  split.
  - intros Hid Hv. rewrite CreateReservation_eq, Hv, Hid, Hnone. reflexivity.
  - intros Hid Hv. rewrite CalculateReservationCost_eq, Hv, Hid, Hnone. reflexivity.
Qed.

End DeleteRoom.

Lemma delete_room_effect_witness :
  exists db',
    RoomService.DeleteRoom example.db0 2%N = Ok db'
    /\ rooms db' = [example.roomA]
    /\ integrity.holds db'.
Proof.
  destruct (RoomService.DeleteRoom example.db0 2%N) as [db' |] eqn:Hdel;
    [ | vm_compute in Hdel; discriminate ].
  destruct (delete_room_effect example.db0 2%N db' integrity_example_db0 Hdel)
    as (Hrooms & _ & _ & _ & _ & _ & Hint).
  exists db'. split; [ reflexivity | ]. split; [ exact Hrooms | exact Hint ].
Defined.

Lemma deleted_room_cannot_be_booked_witness :
  exists db',
    RoomService.DeleteRoom example.db0 1%N = Ok db'
    /\ services.CreateReservation example.env0 db' (example.book [])
       = Err "room not found or inactive".
Proof.
  destruct (RoomService.DeleteRoom example.db0 1%N) as [db' |] eqn:Hdel;
    [ | vm_compute in Hdel; discriminate ].
  exists db'. split; [ reflexivity | ].
  apply (proj1 (deleted_room_cannot_be_booked example.db0 1%N db' example.env0
                  (example.book []) (example.quote []) Hdel)).
  - reflexivity.
  - vm_compute. reflexivity.
Defined.

(** ** The schedule of a room *)

Section Ordering.

Let earlier (r1 r2 : Reservations.row) : Prop :=
  Reservations.start_time r1 <= Reservations.start_time r2.

Lemma insertByStartTime_perm (r : Reservations.row) (rs : list Reservations.row) :
  Permutation (RoomService.insertByStartTime r rs) (r :: rs).
Proof.
  induction rs as [| r' rs IH]; cbn [RoomService.insertByStartTime];
    [ reflexivity | ].
  destruct (_ <=? _); [ reflexivity | ].
  rewrite IH. apply perm_swap.
Qed.

Lemma orderByStartTime_perm (rs : list Reservations.row) :
  Permutation (RoomService.orderByStartTime rs) rs.
Proof.
  induction rs as [| r rs IH]; cbn [RoomService.orderByStartTime];
    [ reflexivity | ].
  rewrite insertByStartTime_perm. now constructor.
Qed.

Lemma insertByStartTime_sorted (r : Reservations.row) (rs : list Reservations.row) :
  StronglySorted earlier rs ->
  StronglySorted earlier (RoomService.insertByStartTime r rs).
Proof.
  induction 1 as [| r' rs Hrs IH Hall]; cbn [RoomService.insertByStartTime].
  - repeat constructor.
  - destruct (Z.leb_spec (Reservations.start_time r) (Reservations.start_time r'))
      as [Hle | Hgt].
    + constructor; [ now constructor | ].
      constructor; [ exact Hle | ].
      rewrite Forall_forall in Hall |- *. intros x Hx.
      specialize (Hall x Hx). unfold earlier in *. lia.
    + constructor; [ exact IH | ].
      rewrite Forall_forall in Hall |- *. intros x Hx.
      apply (Permutation_in _ (insertByStartTime_perm r rs)) in Hx.
      destruct Hx as [<- | Hx]; [ unfold earlier; lia | now apply Hall ].
Qed.

Lemma orderByStartTime_sorted (rs : list Reservations.row) :
  StronglySorted earlier (RoomService.orderByStartTime rs).
Proof.
  induction rs as [| r rs IH]; cbn [RoomService.orderByStartTime];
    [ constructor | now apply insertByStartTime_sorted ].
Qed.

End Ordering.

Lemma inRange_intersects (S E s e : time.Time) :
  s < e -> S < E -> RoomService.inRange S E s e = spec.intersects S E s e.
Proof.
  intros Hse HSE. apply eq_true_iff_eq.
  unfold RoomService.inRange, spec.intersects.
  rewrite !orb_true_iff, !andb_true_iff, !Z.leb_le, !Z.ltb_lt. lia.
Qed.

Lemma StronglySorted_map {A B : Type} (R : B -> B -> Prop) (f : A -> B)
    (l : list A) :
  StronglySorted (fun x y => R (f x) (f y)) l -> StronglySorted R (map f l).
Proof.
  induction 1 as [| a l Hl IH Hall]; cbn [map]; constructor; [ exact IH | ].
  rewrite Forall_forall in Hall |- *. intros y Hy.
  apply in_map_iff in Hy as (x & <- & Hx). now apply Hall.
Qed.

Section Schedule.

Variables (db : DB) (roomID : uuid.UUID) (query : RoomScheduleQuery.t).

Let S := RoomScheduleQuery.StartDateTime query.
Let E := RoomScheduleQuery.EndDateTime query.
Let roomExists := existsb (fun rm => uuid.eqb (Rooms.id rm) roomID) (rooms db).

Lemma querySchedule_filter :
  S < E -> valid_time_range db ->
  filter (fun r =>
            uuid.eqb (Reservations.room_id r) roomID
            && RoomService.inRange S E (Reservations.start_time r)
                 (Reservations.end_time r))
         (reservations db)
  = filter (fun r =>
              uuid.eqb (Reservations.room_id r) roomID
              && spec.intersects S E (Reservations.start_time r)
                   (Reservations.end_time r))
           (reservations db).
Proof.
  intros HSE Hwf. apply filter_ext_in. intros r Hr.
  unfold valid_time_range in Hwf. rewrite forallb_forall in Hwf.
  specialize (Hwf r Hr). apply Z.ltb_lt in Hwf.
  now rewrite inRange_intersects.
Qed.

(** X14. For an existing room and a window [[S,E)] with [S < E],
    [GetRoomSchedule] returns exactly the reservations of the room whose
    interval meets the window ([s < E] and [e > S]), each once, whatever
    their status, cancelled ones included, in ascending order of their
    start times. *)
Theorem room_schedule :
  S < E -> valid_time_range db -> roomExists = true ->
  exists resp,
    RoomService.GetRoomSchedule db roomID query = Ok resp
    /\ RoomScheduleResponse.RoomID resp = roomID
    /\ Permutation
         (RoomScheduleResponse.Schedules resp)
         (map RoomService.scanBlock
            (filter (fun r =>
                       uuid.eqb (Reservations.room_id r) roomID
                       && spec.intersects S E (Reservations.start_time r)
                            (Reservations.end_time r))
                    (reservations db)))
    /\ StronglySorted
         (fun b1 b2 => RoomScheduleBlock.StartTime b1 <= RoomScheduleBlock.StartTime b2)
         (RoomScheduleResponse.Schedules resp).
Proof.
  intros HSE Hwf Hex. unfold RoomService.GetRoomSchedule.
  fold roomExists. rewrite Hex. cbn [negb].
  eexists. split; [ reflexivity | ]. cbn. split; [ reflexivity | ]. split.
  - unfold RoomService.querySchedule. fold S E.
    rewrite <- querySchedule_filter by assumption.
    apply Permutation_map, orderByStartTime_perm.
  - apply StronglySorted_map. cbn [RoomService.scanBlock RoomScheduleBlock.StartTime].
    apply orderByStartTime_sorted.
Qed.


End Schedule.

Lemma room_schedule_witness :
  exists resp,
    RoomService.GetRoomSchedule example.db2 1%N
      (RoomScheduleQuery.Build (1002 * example.hour) (1005 * example.hour))
    = Ok resp
    /\ List.length (RoomScheduleResponse.Schedules resp) = 2%nat.
Proof.
  destruct (room_schedule example.db2 1%N
              (RoomScheduleQuery.Build (1002 * example.hour) (1005 * example.hour)))
    as (resp & Hget & _ & Hperm & _).
  - vm_compute. reflexivity.
  - vm_compute. reflexivity.
  - vm_compute. reflexivity.
  - exists resp. split; [ exact Hget | ].
    rewrite (Permutation_length Hperm). vm_compute. reflexivity.
Defined.

Section ScheduleAndBooking.

Variables (env : services.Env) (db : DB) (req : CreateReservationRequest.t).

Let RoomID := CreateReservationRequest.RoomID req.
Let StartTime := CreateReservationRequest.StartTime req.
Let EndTime := CreateReservationRequest.EndTime req.

Lemma countOverlapping_pos_inv :
  0 < services.countOverlapping db RoomID StartTime EndTime ->
  exists r, In r (reservations db)
            /\ services.overlapping RoomID StartTime EndTime r = true.
Proof.
  unfold services.countOverlapping. intros H.
  destruct (filter _ (reservations db)) as [| r rest] eqn:Hf;
    [ cbn in H; lia | ].
  assert (Hin : In r (r :: rest)) by now left.
  rewrite <- Hf in Hin. apply filter_In in Hin. now exists r.
Qed.

Lemma status_out_cancelled (status : reservation_status) :
  reservation_status_out status = "cancelled" <-> status = cancelled.
Proof. destruct status; cbn; split; intros; congruence. Qed.

(** X16. For a request that satisfies the time constraints, for an
    available room that admits its visitor count, [CreateReservation]
    answers with the conflict error exactly when the schedule that
    [GetRoomSchedule] returns for the same room and the same interval
    lists a reservation whose status is not cancelled. *)
Theorem schedule_shows_conflicts (rm : Rooms.row) :
  services.validateTimeConstraints (services.Now env) StartTime EndTime = Ok tt ->
  valid_time_range db ->
  services.queryAvailableRoom db RoomID = Some rm ->
  CreateReservationRequest.VisitorCount req <= Rooms.capacity rm ->
  exists resp,
    RoomService.GetRoomSchedule db RoomID
      (RoomScheduleQuery.Build StartTime EndTime) = Ok resp
    /\ (services.CreateReservation env db req
        = Err "room is already booked for the selected time period"
        <-> exists b,
              In b (RoomScheduleResponse.Schedules resp)
              /\ RoomScheduleBlock.Status b <> "cancelled").
Proof.
  intros Hv Hwf Hq Hcap.
  assert (HSE : StartTime < EndTime) by now apply validateTimeConstraints_ok_lt in Hv.
  pose proof Hq as Hq'. apply queryAvailableRoom_Some in Hq' as (Hrm & Hid & _).
  assert (Hrows : forall r,
            In r (RoomService.querySchedule db RoomID
                    (RoomScheduleQuery.Build StartTime EndTime))
            <-> In r (reservations db)
                /\ Reservations.room_id r = RoomID
                /\ spec.intersects StartTime EndTime (Reservations.start_time r)
                     (Reservations.end_time r) = true).
  { intros r. unfold RoomService.querySchedule.
    rewrite (querySchedule_filter db RoomID
               (RoomScheduleQuery.Build StartTime EndTime) HSE Hwf).
    cbn [RoomScheduleQuery.StartDateTime RoomScheduleQuery.EndDateTime].
    split.
    - intros Hin. apply (Permutation_in _ (orderByStartTime_perm _)) in Hin.
      apply filter_In in Hin as [Hin Hp]. apply andb_true_iff in Hp as [Hroom Hi].
      apply uuid_eqb_eq in Hroom. auto.
    - intros (Hin & Hroom & Hi).
      apply (Permutation_in _ (Permutation_sym (orderByStartTime_perm _))).
      apply filter_In. split; [ assumption | ].
      apply andb_true_iff. split; [ now apply uuid_eqb_eq | assumption ]. }
  unfold RoomService.GetRoomSchedule.
  assert (Hex : existsb (fun rm0 => uuid.eqb (Rooms.id rm0) RoomID) (rooms db) = true).
  { apply existsb_exists. exists rm. split; [ assumption | now apply uuid_eqb_eq ]. }
  rewrite Hex. cbn [negb]. eexists. split; [ reflexivity | ].
  cbn [RoomScheduleResponse.Schedules].
  rewrite CreateReservation_eq. fold RoomID StartTime EndTime.
  rewrite Hv, Hq. cbn [bind].
  destruct (Z.ltb_spec (Rooms.capacity rm)
              (CreateReservationRequest.VisitorCount req)); [ lia | ].
  destruct (Z.ltb_spec 0 (services.countOverlapping db RoomID StartTime EndTime))
    as [Hcount | Hcount].
  - split; [ intros _ | reflexivity ].
    apply countOverlapping_pos_inv in Hcount as (r & Hr & Hov).
    unfold valid_time_range in Hwf. rewrite forallb_forall in Hwf.
    pose proof (Hwf r Hr) as Hrlt. apply Z.ltb_lt in Hrlt.
    rewrite overlapping_conflicts in Hov by assumption.
    unfold spec.conflicts in Hov. apply andb_true_iff in Hov as [Hov Hi].
    apply andb_true_iff in Hov as [Hroom Hlive]. apply uuid_eqb_eq in Hroom.
    exists (RoomService.scanBlock r). split.
    + apply in_map, Hrows. auto.
    + cbn. rewrite status_out_cancelled. intros Hst. unfold spec.live in Hlive.
      rewrite Hst in Hlive. discriminate.
  - split.
    + destruct (insert_reservation db _) as [db1 |]; cbn [wrap bind];
        [ | discriminate ].
      destruct (services.insertSnackOrders db1 _ _) as [db2 |] eqn:Hsn;
        cbn [bind]; [ discriminate | ].
      intros [= ->]. apply insertSnackOrders_Err in Hsn. discriminate.
    + intros (b & Hb & Hst). exfalso.
      apply in_map_iff in Hb as (r & <- & Hr). apply Hrows in Hr as (Hr & Hroom & Hi).
      cbn in Hst. rewrite status_out_cancelled in Hst.
      assert (Hov : services.overlapping RoomID StartTime EndTime r = true).
      { apply conflicts_overlapping. unfold spec.conflicts, spec.live.
        rewrite Hi, andb_true_r. apply andb_true_iff.
        split; [ now apply uuid_eqb_eq | ].
        now destruct (Reservations.status r). }
      pose proof (countOverlapping_pos _ _ _ _ r Hr Hov). lia.
Qed.

End ScheduleAndBooking.

Lemma schedule_shows_conflicts_witness :
  exists resp,
    RoomService.GetRoomSchedule (example.db1 []) 1%N
      (RoomScheduleQuery.Build (1001 * example.hour) (1003 * example.hour))
    = Ok resp
    /\ exists b, In b (RoomScheduleResponse.Schedules resp)
                 /\ RoomScheduleBlock.Status b <> "cancelled".
Proof.
  destruct (schedule_shows_conflicts example.env1 (example.db1 []) (example.book [])
              example.roomA)
    as (resp & Hget & Hiff).
  - vm_compute. reflexivity.
  - vm_compute. reflexivity.
  - vm_compute. reflexivity.
  - simpl. lia.
  - exists resp. split; [ exact Hget | ]. apply Hiff. vm_compute. reflexivity.
Defined.

(** ** Adding a snack to the catalog *)

Section CreateSnack.

Variables (env : SnackService.Env) (db : DB) (req : CreateSnackRequest.t).

Let newid := SnackService.New env.
Let snack : Snacks.row :=
  Snacks.Build newid (CreateSnackRequest.Name req)
    (CreateSnackRequest.Category req) (CreateSnackRequest.Price req).
Let taken := existsb (fun s => uuid.eqb (Snacks.id s) newid) (snacks db).

Lemma CreateSnack_eq :
  SnackService.CreateSnack env db req
  = if taken then
      Err "error creating snack: pq: duplicate key value violates unique constraint snacks_pkey"
    else
      Ok (CreateSnackResponse.Build newid (CreateSnackRequest.Name req)
            (CreateSnackRequest.Category req) (CreateSnackRequest.Price req)
            (SnackService.Now env),
          with_snacks db (snacks db ++ [snack])%list).
Proof.
  unfold SnackService.CreateSnack, SnackService.insert_snack.
  cbn [Snacks.id]. fold newid taken snack. now destruct taken.
Qed.


Hypothesis fresh : taken = false.

Lemma snack_not_matched {A : Type} (key : A -> uuid.UUID) (l : list A) :
  (forall x, In x l -> key x <> newid) ->
  existsb (uuid.eqb newid) (map key l) = false.
Proof.
  intros H. apply not_true_is_false. intros Hex.
  apply existsb_exists in Hex as (k & Hk & Heq).
  apply in_map_iff in Hk as (x & <- & Hx). apply uuid_eqb_eq in Heq.
  now apply (H x Hx).
Qed.

Lemma querySnacks_new (lines : list SnackLine.t) :
  (forall l, In l lines -> SnackLine.SnackID l <> newid) ->
  services.querySnacks (with_snacks db (snacks db ++ [snack])%list)
    (map SnackLine.SnackID lines)
  = services.querySnacks db (map SnackLine.SnackID lines).
Proof.
  intros H. unfold services.querySnacks. cbn [with_snacks snacks].
  rewrite filter_app. cbn [filter snack Snacks.id].
  rewrite (snack_not_matched SnackLine.SnackID lines H). apply app_nil_r.
Qed.

Lemma joinReservationSnacks_new (id : uuid.UUID) :
  integrity.foreign_keys db = true ->
  services.joinReservationSnacks (with_snacks db (snacks db ++ [snack])%list) id
  = services.joinReservationSnacks db id.
Proof.
  intros Hfk. unfold services.joinReservationSnacks.
  cbn [with_snacks snacks reservation_snacks].
  apply flat_map_ext_in. intros rs Hrs. apply filter_In in Hrs as [Hrs _].
  rewrite filter_app. cbn [filter snack Snacks.id].
  destruct (uuid.eqb (ReservationSnacks.snack_id rs) newid) eqn:Heq;
    [ | now rewrite app_nil_r ].
  exfalso. apply uuid_eqb_eq in Heq.
  unfold integrity.foreign_keys in Hfk. apply andb_true_iff in Hfk as [_ Hfk].
  rewrite forallb_forall in Hfk. apply Hfk in Hrs.
  apply andb_true_iff in Hrs as [_ Hs]. rewrite Heq in Hs.
  unfold taken in fresh. congruence.
Qed.


End CreateSnack.

